(** * SafeDoc front end: a shallow embedding of the upload / redact / download
    flow of [frontend/src/app/page.tsx], of the sensitivity table of
    [frontend/src/components/RedactionConfig.tsx] and of the
    [RedactionPreview] component.

    JavaScript strings are modelled by [string]; every [ascii] stands for one
    UTF-16 code unit below 256.  React state is a record, a handler is a
    computation over a [World] (React state + browser effects) that reads the
    state it closed over and writes through the setters.  A call of the
    asynchronous [doRedact] runs to its end, the reply of the backend
    included, before the next event is handled.

    The redaction engine itself runs in the backend, outside these sources;
    [Engine] models what the specification says of it. *)

From Stdlib Require Import String Ascii List ZArith NArith Bool Lia DecimalString.
Import ListNotations.
Open Scope string_scope.
Set Warnings "-register-all".

(** ** The JavaScript fragment the components rely on *)

Module JS.

(** Values that flow through the untyped ([any]) parts of the page. Numbers are
    restricted to integers. *)
Inductive JSValue : Type :=
| VUndefined
| VNull
| VBool (b : bool)
| VNum (z : Z)
| VStr (s : string)
| VArr (items : list JSValue)
| VObj (fields : list (string * JSValue)).

Inductive Exn : Type := AxiosError | SyntaxError | TypeError.

(** ToBoolean *)
Definition truthy (v : JSValue) : bool :=
  match v with
  | VUndefined | VNull => false
  | VBool b => b
  | VNum z => negb (Z.eqb z 0)
  | VStr s => negb (String.eqb s "")
  | VArr _ | VObj _ => true
  end.

Definition truthy_str (s : string) : bool := negb (String.eqb s "").

(** [a || b] *)
Definition or_else (a b : JSValue) : JSValue := if truthy a then a else b.

Fixpoint assoc {A : Type} (k : string) (l : list (string * A)) : option A :=
  match l with
  | [] => None
  | (k', v) :: l' => if String.eqb k k' then Some v else assoc k l'
  end.

(** [v.k] for a key that no prototype defines ([error], [message], [detail]):
    reading a property of [null] or [undefined] throws, a missing property
    reads as [undefined]. *)
Definition get_prop (v : JSValue) (k : string) : Exn + JSValue :=
  match v with
  | VUndefined | VNull => inl TypeError
  | VObj fields => inr (match assoc k fields with Some x => x | None => VUndefined end)
  | _ => inr VUndefined
  end.

(** [v === s] for a string literal [s] *)
Definition strict_eq_str (v : JSValue) (s : string) : bool :=
  match v with
  | VStr s' => String.eqb s' s
  | _ => false
  end.

(** WhiteSpace and LineTerminator code units below 256:
    TAB, LF, VT, FF, CR, SP, NBSP. *)
Definition is_white (c : ascii) : bool :=
  let n := nat_of_ascii c in
  (Nat.eqb n 9 || Nat.eqb n 10 || Nat.eqb n 11 || Nat.eqb n 12
   || Nat.eqb n 13 || Nat.eqb n 32 || Nat.eqb n 160)%bool.

(** LineTerminator code units below 256 (what [.] refuses to match). *)
Definition is_line_terminator (c : ascii) : bool :=
  let n := nat_of_ascii c in (Nat.eqb n 10 || Nat.eqb n 13)%bool.

Fixpoint trimStart (s : string) : string :=
  match s with
  | EmptyString => EmptyString
  | String c r => if is_white c then trimStart r else s
  end.

Fixpoint trimEnd (s : string) : string :=
  match s with
  | EmptyString => EmptyString
  | String c r =>
      match trimEnd r with
      | EmptyString => if is_white c then EmptyString else String c EmptyString
      | r' => String c r'
      end
  end.

(** [s.trim()] *)
Definition trim (s : string) : string := trimEnd (trimStart s).

Definition all_white (s : string) : bool :=
  forallb is_white (list_ascii_of_string s).

(** Canonicalisation of the [i] flag on code units below 128. *)
Definition lower (c : ascii) : ascii :=
  let n := nat_of_ascii c in
  if (Nat.leb 65 n && Nat.leb n 90)%bool then ascii_of_nat (n + 32) else c.

Fixpoint lowercase (s : string) : string :=
  match s with
  | EmptyString => EmptyString
  | String c r => String (lower c) (lowercase r)
  end.

(** [Math.round (n / 1000)] for an integer [n]: halves round towards +oo. *)
Definition round_div_1000 (n : Z) : Z := ((n + 500) / 1000)%Z.

(** *** The two regular expressions of [doRedact] *)

Fixpoint strip_prefix (p s : string) : option string :=
  match p, s with
  | EmptyString, _ => Some s
  | String a p', String b s' => if Ascii.eqb a b then strip_prefix p' s' else None
  | String _ _, EmptyString => None
  end.

(** The double quote, written Q in the comments below. *)
Definition dquote : ascii := "034"%char.

Definition is_quote (c : ascii) : bool := Ascii.eqb c dquote.

(** [(.+?)Q?$] once the lazy group holds [acc]: try the optional quote and
    the end anchor here, otherwise hand one more character to the group. *)
Fixpoint lazy_group (acc r : string) : option string :=
  match r with
  | EmptyString => Some acc
  | String c r' =>
      if (is_quote c && String.eqb r' "")%bool then Some acc
      else if is_line_terminator c then None
      else lazy_group (acc ++ String c "") r'
  end.

(** [(.+?)Q?$]: the group takes at least one character. *)
Definition group_to_end (r : string) : option string :=
  match r with
  | EmptyString => None
  | String c r' => if is_line_terminator c then None else lazy_group (String c "") r'
  end.

(** [Q?(.+?)Q?$] right after [filename=]: the optional opening quote is
    greedy, and given back when the rest cannot match. *)
Definition after_filename_eq (r : string) : option string :=
  match r with
  | String c r' =>
      if is_quote c then
        match group_to_end r' with
        | Some g => Some g
        | None => group_to_end r
        end
      else group_to_end r
  | EmptyString => group_to_end r
  end.

Definition filename_at (s : string) : option string :=
  match strip_prefix "filename=" s with
  | Some r => after_filename_eq r
  | None => None
  end.

(** [s.match(/filename=Q?(.+?)Q?$/)], giving [match[1]] of the leftmost
    match, [None] for [null]. *)
Fixpoint match_filename (s : string) : option string :=
  match filename_at s with
  | Some g => Some g
  | None =>
      match s with
      | EmptyString => None
      | String _ r => match_filename r
      end
  end.

(** The alternatives of [(pdf|png|jpg|jpeg|bmp|tiff?)]. *)
Definition extensions : list string :=
  ["pdf"; "png"; "jpg"; "jpeg"; "bmp"; "tiff"; "tif"].

(** Does [/\.(pdf|png|jpg|jpeg|bmp|tiff?)$/i] match at the very start of [s]? *)
Definition extension_at (s : string) : bool :=
  match s with
  | String c r => (Ascii.eqb c "."%char && existsb (String.eqb (lowercase r)) extensions)%bool
  | EmptyString => false
  end.

(** [s.replace(/\.(pdf|png|jpg|jpeg|bmp|tiff?)$/i, '')]: the leftmost match
    is cut out; anchored at the end, it is a suffix. *)
Fixpoint strip_extension (s : string) : string :=
  if extension_at s then EmptyString
  else match s with
       | EmptyString => EmptyString
       | String c r => String c (strip_extension r)
       end.

(** Vocabulary for the lemmas on the two expressions. *)
Definition no_line_terminator (s : string) : bool :=
  forallb (fun c => negb (is_line_terminator c)) (list_ascii_of_string s).

Fixpoint has_dot (s : string) : bool :=
  match s with
  | EmptyString => false
  | String c r => (Ascii.eqb c "."%char || has_dot r)%bool
  end.

End JS.

(** ** A reader for the JSON bodies used in the examples

    Objects, arrays, strings without escapes, integers and the three
    literals.  It instantiates the [JSON_parse] parameter of the handlers
    wherever a concrete response body is run. *)

Module Json.
Import JS.

Definition is_space (c : ascii) : bool :=
  let n := nat_of_ascii c in
  (Nat.eqb n 32 || Nat.eqb n 9 || Nat.eqb n 10 || Nat.eqb n 13)%bool.

Fixpoint skip (s : string) : string :=
  match s with
  | String c r => if is_space c then skip r else s
  | EmptyString => s
  end.

Definition digit (c : ascii) : option Z :=
  let n := nat_of_ascii c in
  if (Nat.leb 48 n && Nat.leb n 57)%bool then Some (Z.of_nat (n - 48)) else None.

Fixpoint digits (acc : Z) (s : string) : Z * string :=
  match s with
  | String c r =>
      match digit c with
      | Some d => digits (acc * 10 + d)%Z r
      | None => (acc, s)
      end
  | EmptyString => (acc, s)
  end.

Definition number (s : string) : option (Z * string) :=
  match s with
  | String c r =>
      match digit c with
      | Some d => Some (digits d r)
      | None => None
      end
  | EmptyString => None
  end.

(** The characters up to the closing quote; a backslash is not read. *)
Fixpoint chars (s : string) : option (string * string) :=
  match s with
  | EmptyString => None
  | String c r =>
      if is_quote c then Some (EmptyString, r)
      else if Ascii.eqb c "092"%char then None
      else match chars r with
           | Some (t, r') => Some (String c t, r')
           | None => None
           end
  end.

Definition literal (word : string) (v : JSValue) (s : string) : option (JSValue * string) :=
  match strip_prefix word s with
  | Some r => Some (v, r)
  | None => None
  end.

Fixpoint value (fuel : nat) (s : string) : option (JSValue * string) :=
  match fuel with
  | O => None
  | S fuel' =>
      match skip s with
      | EmptyString => None
      | String c r =>
          if is_quote c then
            match chars r with
            | Some (t, r') => Some (VStr t, r')
            | None => None
            end
          else if Ascii.eqb c "["%char then
            match skip r with
            | String "]"%char r' => Some (VArr [], r')
            | _ => match elements fuel' r with
                   | Some (l, r') => Some (VArr l, r')
                   | None => None
                   end
            end
          else if Ascii.eqb c "{"%char then
            match skip r with
            | String "}"%char r' => Some (VObj [], r')
            | _ => match members fuel' [] r with
                   | Some (l, r') => Some (VObj l, r')
                   | None => None
                   end
            end
          else if Ascii.eqb c "-"%char then
            match number r with
            | Some (z, r') => Some (VNum (- z), r')
            | None => None
            end
          else if Ascii.eqb c "n"%char then literal "null" VNull (String c r)
          else if Ascii.eqb c "t"%char then literal "true" (VBool true) (String c r)
          else if Ascii.eqb c "f"%char then literal "false" (VBool false) (String c r)
          else match number (String c r) with
               | Some (z, r') => Some (VNum z, r')
               | None => None
               end
      end
  end
with elements (fuel : nat) (s : string) : option (list JSValue * string) :=
  match fuel with
  | O => None
  | S fuel' =>
      match value fuel' s with
      | Some (v, r) =>
          match skip r with
          | String "]"%char r' => Some ([v], r')
          | String ","%char r' =>
              match elements fuel' r' with
              | Some (l, r'') => Some (v :: l, r'')
              | None => None
              end
          | _ => None
          end
      | None => None
      end
  end
with members (fuel : nat) (seen : list (string * JSValue)) (s : string)
  : option (list (string * JSValue) * string) :=
  match fuel with
  | O => None
  | S fuel' =>
      match skip s with
      | String c r =>
          if is_quote c then
            match chars r with
            | Some (k, r1) =>
                match skip r1 with
                | String ":"%char r2 =>
                    match value fuel' r2 with
                    | Some (v, r3) =>
                        (* a repeated key overrides: newest first *)
                        match skip r3 with
                        | String "}"%char r4 => Some ((k, v) :: seen, r4)
                        | String ","%char r4 => members fuel' ((k, v) :: seen) r4
                        | _ => None
                        end
                    | None => None
                    end
                | _ => None
                end
            | None => None
            end
          else None
      | EmptyString => None
      end
  end.

Definition JSON_parse (text : string) : option JSValue :=
  match value (2 * String.length text + 2) text with
  | Some (v, r) => match skip r with EmptyString => Some v | _ => None end
  | None => None
  end.

(** A string literal with its quotes, for writing bodies. *)
Definition quoted (s : string) : string := String dquote s ++ String dquote "".

End Json.

(** ** [RedactionConfig.tsx]: the table of sensitivity levels *)

Module RedactionConfig.

Record Level : Type := {
  id : string;
  title : string;
  description : string;
  items : list string;
  icon : string;
  gradient : string;
  border : string;
  glow : string;
  iconColor : string;
  badge : string;
  pillColor : string
}.

Definition levels : list Level := [
  {| id := "low";
     title := "Basic";
     description := "Aadhaar & PAN only";
     items := ["Aadhaar Number"; "PAN Card"];
     icon := "Shield";
     gradient := "from-emerald-500/20 to-emerald-600/5";
     border := "border-emerald-500/40";
     glow := "shadow-emerald-500/20";
     iconColor := "text-emerald-400";
     badge := "bg-emerald-500/15 text-emerald-400";
     pillColor := "bg-emerald-500/10 text-emerald-400 border-emerald-500/20" |};
  {| id := "medium";
     title := "Standard";
     description := "IDs + Contact Info";
     items := ["Aadhaar"; "PAN"; "Passport"; "DL"; "Phone"];
     icon := "ShieldAlert";
     gradient := "from-amber-500/20 to-amber-600/5";
     border := "border-amber-500/40";
     glow := "shadow-amber-500/20";
     iconColor := "text-amber-400";
     badge := "bg-amber-500/15 text-amber-400";
     pillColor := "bg-amber-500/10 text-amber-400 border-amber-500/20" |};
  {| id := "high";
     title := "Maximum";
     description := "All PII detected & masked";
     items := ["Aadhaar"; "PAN"; "Passport"; "DL"; "Voter ID"; "Phone"; "Email";
               "DOB"; "Bank A/C"; "IFSC"];
     icon := "ShieldCheck";
     gradient := "from-rose-500/20 to-rose-600/5";
     border := "border-rose-500/40";
     glow := "shadow-rose-500/20";
     iconColor := "text-rose-400";
     badge := "bg-rose-500/15 text-rose-400";
     pillColor := "bg-rose-500/10 text-rose-400 border-rose-500/20" |}
].

(** The ids a click on a level card can pass to [onSelectLevel]. *)
Definition level_ids : list string := map id levels.

(** The closed enumeration of PII types. *)
Inductive PiiType : Type :=
| Aadhaar | PAN | Passport | DrivingLicense | VoterID
| Phone | Email | DOB | BankAccount | IFSC.

Definition all_types : list PiiType :=
  [Aadhaar; PAN; Passport; DrivingLicense; VoterID; Phone; Email; DOB; BankAccount; IFSC].

Definition PiiType_eqb (a b : PiiType) : bool :=
  match a, b with
  | Aadhaar, Aadhaar | PAN, PAN | Passport, Passport
  | DrivingLicense, DrivingLicense | VoterID, VoterID | Phone, Phone
  | Email, Email | DOB, DOB | BankAccount, BankAccount | IFSC, IFSC => true
  | _, _ => false
  end.

(** The type a pill label of the table stands for. *)
Definition type_of_item (item : string) : option PiiType :=
  if String.eqb item "Aadhaar Number" then Some Aadhaar
  else if String.eqb item "Aadhaar" then Some Aadhaar
  else if String.eqb item "PAN Card" then Some PAN
  else if String.eqb item "PAN" then Some PAN
  else if String.eqb item "Passport" then Some Passport
  else if String.eqb item "DL" then Some DrivingLicense
  else if String.eqb item "Voter ID" then Some VoterID
  else if String.eqb item "Phone" then Some Phone
  else if String.eqb item "Email" then Some Email
  else if String.eqb item "DOB" then Some DOB
  else if String.eqb item "Bank A/C" then Some BankAccount
  else if String.eqb item "IFSC" then Some IFSC
  else None.

Definition find_level (level : string) : option Level :=
  find (fun l => String.eqb (id l) level) levels.

(** The items of a level, each read as a type; [None] for a label that names
    no type. *)
Definition level_types (level : string) : list (option PiiType) :=
  match find_level level with
  | Some l => map type_of_item (items l)
  | None => []
  end.

(** Is type [t] listed at [level]? *)
Definition active (level : string) (t : PiiType) : bool :=
  existsb (fun o => match o with Some t' => PiiType_eqb t' t | None => false end)
          (level_types level).

End RedactionConfig.

(** ** The page: state, browser, and the handler monad *)

Module Page.
Import JS.

Inductive Step : Type := Upload | Configure | Password | Processing | Result.

Record File : Type := { name : string; contents : string }.

Record Blob : Type := { blob_type : string; blob_bytes : string }.

(** Object URLs are opaque non-empty strings, hence always truthy. *)
Inductive ObjectURL : Type := BlobURL (id : nat).

(** The nine [useState] cells of [Home]. [error] and [passwordError] are
    typed [string | null] but receive [any]-typed values of the response. *)
Record State : Type := {
  step : Step;
  selectedFile : option File;
  redactionLevel : string;
  redactedPdfUrl : option ObjectURL;
  downloadFilename : string;
  error : JSValue;
  processingTime : option Z;
  pdfPassword : string;
  passwordError : JSValue
}.

Definition initial_state : State := {|
  step := Upload;
  selectedFile := None;
  redactionLevel := "medium";
  redactedPdfUrl := None;
  downloadFilename := "redacted_document.pdf";
  error := VNull;
  processingTime := None;
  pdfPassword := "";
  passwordError := VNull
|}.

Inductive FormValue : Type := FFile (f : File) | FString (s : string).

Definition FormData : Type := list (string * FormValue).

(** What comes back from the backend, before axios looks at it. *)
Inductive ServerReply : Type :=
| NetworkError
| HttpReply (status : Z) (headers : list (string * string)) (data : Blob).

Record Response : Type := {
  status : Z;
  headers : list (string * string);
  data : Blob
}.

(** The backend as seen from one call: milliseconds taken and the reply. *)
Definition Server : Type := FormData -> Z * ServerReply.

(** Effects that leave the component, newest first in the log. *)
Inductive Effect : Type :=
| Post (url : string) (body : FormData)
| CreateObjectURL (u : ObjectURL) (b : Blob)
| RevokeObjectURL (u : ObjectURL)
| ConsoleError (msg : string)
| Download (href : ObjectURL) (filename : string).

Record World : Type := {
  st : State;
  now : Z;
  next_url : nat;
  live : list (ObjectURL * Blob);
  log : list Effect
}.

Definition initial_world (t : Z) : World :=
  {| st := initial_state; now := t; next_url := 0; live := []; log := [] |}.

(** Statement completions: normal, [return], or a thrown exception. *)
Inductive Completion (A : Type) : Type :=
| Normal (a : A)
| Returned
| Thrown (e : Exn).
Arguments Normal {A} a.
Arguments Returned {A}.
Arguments Thrown {A} e.

Definition M (A : Type) : Type := World -> Completion A * World.

Definition ret {A} (a : A) : M A := fun w => (Normal a, w).

Definition bind {A B} (m : M A) (k : A -> M B) : M B :=
  fun w =>
    match m w with
    | (Normal a, w') => k a w'
    | (Returned, w') => (Returned, w')
    | (Thrown e, w') => (Thrown e, w')
    end.

Notation "x <- m ;; k" := (bind m (fun x => k))
  (at level 61, m at next level, right associativity).
Notation "m ;; k" := (bind m (fun _ => k))
  (at level 61, right associativity).

Definition return_ {A} : M A := fun w => (Returned, w).
Definition throw {A} (e : Exn) : M A := fun w => (Thrown e, w).

Definition try_catch {A} (body : M A) (handler : Exn -> M A) : M A :=
  fun w =>
    match body w with
    | (Thrown e, w') => handler e w'
    | r => r
    end.

Definition when (b : bool) (m : M unit) : M unit := if b then m else ret tt.

Definition lift {A} (r : Exn + A) : M A :=
  match r with
  | inl e => throw e
  | inr a => ret a
  end.

(** Running a handler to its end: the world it leaves behind. *)
Definition run (m : M unit) (w : World) : World := snd (m w).

(** *** State setters *)

Definition with_st (f : State -> State) : M unit :=
  fun w => (Normal tt,
            {| st := f (st w); now := now w; next_url := next_url w;
               live := live w; log := log w |}).

Definition setStep (x : Step) : M unit :=
  with_st (fun s =>
    {| step := x; selectedFile := selectedFile s; redactionLevel := redactionLevel s;
       redactedPdfUrl := redactedPdfUrl s; downloadFilename := downloadFilename s;
       error := error s; processingTime := processingTime s;
       pdfPassword := pdfPassword s; passwordError := passwordError s |}).

Definition setSelectedFile (x : option File) : M unit :=
  with_st (fun s =>
    {| step := step s; selectedFile := x; redactionLevel := redactionLevel s;
       redactedPdfUrl := redactedPdfUrl s; downloadFilename := downloadFilename s;
       error := error s; processingTime := processingTime s;
       pdfPassword := pdfPassword s; passwordError := passwordError s |}).

Definition setRedactionLevel (x : string) : M unit :=
  with_st (fun s =>
    {| step := step s; selectedFile := selectedFile s; redactionLevel := x;
       redactedPdfUrl := redactedPdfUrl s; downloadFilename := downloadFilename s;
       error := error s; processingTime := processingTime s;
       pdfPassword := pdfPassword s; passwordError := passwordError s |}).

Definition setRedactedPdfUrl (x : option ObjectURL) : M unit :=
  with_st (fun s =>
    {| step := step s; selectedFile := selectedFile s; redactionLevel := redactionLevel s;
       redactedPdfUrl := x; downloadFilename := downloadFilename s;
       error := error s; processingTime := processingTime s;
       pdfPassword := pdfPassword s; passwordError := passwordError s |}).

Definition setDownloadFilename (x : string) : M unit :=
  with_st (fun s =>
    {| step := step s; selectedFile := selectedFile s; redactionLevel := redactionLevel s;
       redactedPdfUrl := redactedPdfUrl s; downloadFilename := x;
       error := error s; processingTime := processingTime s;
       pdfPassword := pdfPassword s; passwordError := passwordError s |}).

Definition setError (x : JSValue) : M unit :=
  with_st (fun s =>
    {| step := step s; selectedFile := selectedFile s; redactionLevel := redactionLevel s;
       redactedPdfUrl := redactedPdfUrl s; downloadFilename := downloadFilename s;
       error := x; processingTime := processingTime s;
       pdfPassword := pdfPassword s; passwordError := passwordError s |}).

Definition setProcessingTime (x : option Z) : M unit :=
  with_st (fun s =>
    {| step := step s; selectedFile := selectedFile s; redactionLevel := redactionLevel s;
       redactedPdfUrl := redactedPdfUrl s; downloadFilename := downloadFilename s;
       error := error s; processingTime := x;
       pdfPassword := pdfPassword s; passwordError := passwordError s |}).

Definition setPdfPassword (x : string) : M unit :=
  with_st (fun s =>
    {| step := step s; selectedFile := selectedFile s; redactionLevel := redactionLevel s;
       redactedPdfUrl := redactedPdfUrl s; downloadFilename := downloadFilename s;
       error := error s; processingTime := processingTime s;
       pdfPassword := x; passwordError := passwordError s |}).

Definition setPasswordError (x : JSValue) : M unit :=
  with_st (fun s =>
    {| step := step s; selectedFile := selectedFile s; redactionLevel := redactionLevel s;
       redactedPdfUrl := redactedPdfUrl s; downloadFilename := downloadFilename s;
       error := error s; processingTime := processingTime s;
       pdfPassword := pdfPassword s; passwordError := x |}).

(** *** Browser primitives *)

Definition emit (e : Effect) (w : World) : World :=
  {| st := st w; now := now w; next_url := next_url w; live := live w;
     log := e :: log w |}.

Definition Date_now : M Z := fun w => (Normal (now w), w).

Definition console_error (msg : string) : M unit :=
  fun w => (Normal tt, emit (ConsoleError msg) w).

Definition url_eqb (a b : ObjectURL) : bool :=
  match a, b with BlobURL i, BlobURL j => Nat.eqb i j end.

Definition createObjectURL (b : Blob) : M ObjectURL :=
  fun w =>
    let u := BlobURL (next_url w) in
    (Normal u,
     {| st := st w; now := now w; next_url := S (next_url w);
        live := (u, b) :: live w; log := CreateObjectURL u b :: log w |}).

Definition revokeObjectURL (u : ObjectURL) : M unit :=
  fun w =>
    (Normal tt,
     {| st := st w; now := now w; next_url := next_url w;
        live := filter (fun e => negb (url_eqb (fst e) u)) (live w);
        log := RevokeObjectURL u :: log w |}).

Definition click_download (href : ObjectURL) (filename : string) : M unit :=
  fun w => (Normal tt, emit (Download href filename) w).

Definition API_URL : string := "http://localhost:8000".

(** [axios.post(url, formData, { responseType: 'blob',
    validateStatus: (status) => status < 500 })]: the request goes out, time
    passes, and the promise rejects on a network error or when
    [validateStatus] says no. *)
Definition axios_post (srv : Server) (url : string) (formData : FormData) : M Response :=
  fun w =>
    let '(elapsed, reply) := srv formData in
    let w' := {| st := st w; now := (now w + elapsed)%Z; next_url := next_url w;
                 live := live w; log := Post url formData :: log w |} in
    match reply with
    | NetworkError => (Thrown AxiosError, w')
    | HttpReply sc hs d =>
        if (sc <? 500)%Z
        then (Normal {| status := sc; headers := hs; data := d |}, w')
        else (Thrown AxiosError, w')
    end.

(** [await blob.text()] *)
Definition blob_text (b : Blob) : string := blob_bytes b.

Definition is_post (e : Effect) : bool :=
  match e with
  | Post _ _ => true
  | _ => false
  end.

(** *** The handlers of [Home] *)

Section Handlers.

(** [JSON.parse]: [None] when it throws a [SyntaxError]. *)
Variable JSON_parse : string -> option JSValue.

Definition parse (text : string) : M JSValue :=
  match JSON_parse text with
  | Some v => ret v
  | None => throw SyntaxError
  end.

Definition password_truthy (password : option string) : bool :=
  match password with
  | Some p => truthy_str p
  | None => false
  end.

(** The [FormData] of lines 39-44. *)
Definition build_form (file : File) (level : string) (password : option string) : FormData :=
  ([("file", FFile file); ("redaction_level", FString level)]
   ++ match password with
      | Some p => if truthy_str p then [("password", FString p)] else []
      | None => []
      end)%list.

(** Lines 86-93: the suggested name of the download. *)
Definition suggest_filename (file : File) (response : Response) : M unit :=
  match assoc "content-disposition" (headers response) with
  | Some disposition =>
      if truthy_str disposition then
        match match_filename disposition with
        | Some m => setDownloadFilename m
        | None => ret tt
        end
      else setDownloadFilename (strip_extension (name file) ++ "_redacted.pdf")
  | None => setDownloadFilename (strip_extension (name file) ++ "_redacted.pdf")
  end.

(** [cl] is the state the closure of this render captured. *)
Definition doRedact (cl : State) (srv : Server) (password : option string) : M unit :=
  match selectedFile cl with
  | None => return_
  | Some file =>
      setStep Processing ;;
      setError VNull ;;
      setPasswordError VNull ;;
      startTime <- Date_now ;;
      try_catch
        (let formData := build_form file (redactionLevel cl) password in
         response <- axios_post srv (API_URL ++ "/redact") formData ;;
         when (status response =? 423)%Z
           (errorData <- parse (blob_text (data response)) ;;
            code <- lift (get_prop errorData "error") ;;
            when (strict_eq_str code "password_required")
              (message <- (if password_truthy password
                           then lift (get_prop errorData "message")
                           else ret VNull) ;;
               setPasswordError message ;;
               setPdfPassword "" ;;
               setStep Password ;;
               return_)) ;;
         when (status response >=? 400)%Z
           (try_catch
              (errorData <- parse (blob_text (data response)) ;;
               detail <- lift (get_prop errorData "detail") ;;
               setError (or_else detail (VStr "Error processing file.")))
              (fun _ =>
                 setError (VStr "Error processing file. Make sure the backend is running.")) ;;
            setStep Configure ;;
            return_) ;;
         url <- createObjectURL {| blob_type := "application/pdf";
                                   blob_bytes := blob_bytes (data response) |} ;;
         setRedactedPdfUrl (Some url) ;;
         endTime <- Date_now ;;
         setProcessingTime (Some (round_div_1000 (endTime - startTime))) ;;
         suggest_filename file response ;;
         setStep Result)
        (fun err =>
           console_error "Redaction error:" ;;
           setError (VStr "Error processing file. Make sure the backend server is running on port 8000.") ;;
           setStep Configure)
  end.

Definition handleFileUpload (file : File) : M unit :=
  setSelectedFile (Some file) ;;
  setError VNull ;;
  setStep Configure.

Definition handleProceed (cl : State) (srv : Server) : M unit :=
  doRedact cl srv None.

Definition handlePasswordSubmit (cl : State) (srv : Server) : M unit :=
  if negb (truthy_str (trim (pdfPassword cl))) then
    setPasswordError (VStr "Please enter the password.") ;;
    return_
  else doRedact cl srv (Some (pdfPassword cl)).

Definition handleDownload (cl : State) : M unit :=
  match redactedPdfUrl cl with
  | None => return_
  | Some u => click_download u (downloadFilename cl)
  end.

Definition handleReset (cl : State) : M unit :=
  match redactedPdfUrl cl with
  | Some u => revokeObjectURL u
  | None => ret tt
  end ;;
  setStep Upload ;;
  setSelectedFile None ;;
  setRedactedPdfUrl None ;;
  setRedactionLevel "medium" ;;
  setError VNull ;;
  setProcessingTime None ;;
  setPdfPassword "" ;;
  setPasswordError VNull.

(** *** Vocabulary for the replies of the backend *)

(** The reply that opens the password prompt: status 423 and a JSON body whose
    [error] is the code [password_required]. *)
Definition asks_password (reply : ServerReply) : bool :=
  match reply with
  | HttpReply sc _ body =>
      (sc =? 423)%Z &&
      match JSON_parse (blob_text body) with
      | Some v =>
          match get_prop v "error" with
          | inr code => strict_eq_str code "password_required"
          | inl _ => false
          end
      | None => false
      end
  | NetworkError => false
  end.

(** A failure: no reply at all, or a status of 400 and above. *)
Definition is_failure (reply : ServerReply) : bool :=
  match reply with
  | HttpReply sc _ _ => (400 <=? sc)%Z
  | NetworkError => true
  end.




(** The suggested name as the interface words it: the name parsed from the
    Content-Disposition header when the header is there, otherwise the
    name of the upload without its extension, followed by [_redacted.pdf]. *)
Definition suggested_name (file : File) (hs : list (string * string)) : option string :=
  match assoc "content-disposition" hs with
  | Some disposition =>
      if truthy_str disposition then match_filename disposition
      else Some (strip_extension (name file) ++ "_redacted.pdf")
  | None => Some (strip_extension (name file) ++ "_redacted.pdf")
  end.

(** *** What a render offers, and the events it wires to the handlers *)

Inductive Event : Type :=
| FileUploaded (file : File)
| LevelSelected (level : string)
| Proceed (srv : Server)
| PasswordTyped (value : string)
| PasswordSubmitted (srv : Server)
| StartOver
| DownloadClicked.

(** An event can fire only from an element the current render shows. *)
Definition enabled (s : State) (e : Event) : Prop :=
  match e with
  | FileUploaded _ => step s = Upload
  | LevelSelected level =>
      step s = Configure /\ selectedFile s <> None /\ In level RedactionConfig.level_ids
  | Proceed _ =>
      step s = Configure /\ selectedFile s <> None /\ truthy_str (redactionLevel s) = true
  | PasswordTyped _ | PasswordSubmitted _ => step s = Password /\ selectedFile s <> None
  | StartOver => step s <> Upload
  | DownloadClicked => step s = Result /\ redactedPdfUrl s <> None
  end.

Definition handler (cl : State) (e : Event) : M unit :=
  match e with
  | FileUploaded file => handleFileUpload file
  | LevelSelected level => setRedactionLevel level
  | Proceed srv => handleProceed cl srv
  | PasswordTyped value => setPdfPassword value
  | PasswordSubmitted srv => handlePasswordSubmit cl srv
  | StartOver => handleReset cl
  | DownloadClicked => handleDownload cl
  end.

(** The handler of the current render runs on the current state. *)
Definition dispatch (e : Event) (w : World) : World := run (handler (st w) e) w.

Inductive reachable : World -> Prop :=
| reach_init : forall t, reachable (initial_world t)
| reach_step : forall w e, reachable w -> enabled (st w) e -> reachable (dispatch e w).

End Handlers.

(** *** The main content of the page (lines 188-375) *)

(** [v && <div>{v}</div>]: the red box appears for a truthy [v] only. *)
Definition alert_box (v : JSValue) : option JSValue :=
  if truthy v then Some v else None.

Inductive Screen : Type :=
| UploadScreen
| ConfigureScreen (alert : option JSValue) (selectedLevel : string) (fileName : string)
| PasswordScreen (fileName : string) (alert : option JSValue) (value : string)
| ProcessingScreen (level : string)
| ResultScreen (level : string) (filename : string) (seconds : option Z) (src : ObjectURL)
| Blank.

Definition render (s : State) : Screen :=
  match step s with
  | Upload => UploadScreen
  | Configure =>
      match selectedFile s with
      | Some f => ConfigureScreen (alert_box (error s)) (redactionLevel s) (name f)
      | None => Blank
      end
  | Password =>
      match selectedFile s with
      | Some f => PasswordScreen (name f) (alert_box (passwordError s)) (pdfPassword s)
      | None => Blank
      end
  | Processing => ProcessingScreen (redactionLevel s)
  | Result =>
      match redactedPdfUrl s with
      | Some u => ResultScreen (redactionLevel s) (downloadFilename s) (processingTime s) u
      | None => Blank
      end
  end.

End Page.

(** ** The [RedactionPreview] component *)

Module RedactionPreview.

Record PiiEntity : Type := {
  text : string;
  label : string;
  start : Z;
  end_ : Z
}.

(** A prop as a caller may pass it. *)
Inductive Prop_ (A : Type) : Type :=
| Undefined
| Null
| Given (a : A).
Arguments Undefined {A}.
Arguments Null {A}.
Arguments Given {A} a.

Inductive Node : Type :=
| Text (s : string)
| Num (n : Z)
| Elem (tag : string) (children : list Node).

(** A destructuring default applies to [undefined] only. *)
Definition default {A} (d : A) (p : Prop_ A) : Prop_ A :=
  match p with
  | Undefined => Given d
  | _ => p
  end.

(** [p ?? d] *)
Definition nullish {A} (p : Prop_ A) (d : A) : A :=
  match p with
  | Given a => a
  | Undefined | Null => d
  end.

Definition row (pii : PiiEntity) : Node :=
  Elem "div"
    [Elem "div"
       [Elem "span" [Text (label pii)];
        Elem "span" [Text "Index: "; Num (start pii); Text "-"; Num (end_ pii)]];
     Elem "span" [Text (text pii)]].

(** The right-hand card, lines 62-81. *)
Definition pii_card (entities : list PiiEntity) : Node :=
  Elem "Card"
    [Elem "h3" [Text "Detected PII ("; Num (Z.of_nat (length entities)); Text ")"];
     Elem "div"
       (if Nat.eqb (length entities) 0
        then [Elem "p" [Text "No PII detected."]]
        else map row entities)].

(** The left-hand card, lines 52-60 (a string prop that is [null] renders
    nothing). *)
Definition text_card (showOriginal : bool) (originalText redactedText : Prop_ string) : Node :=
  Elem "Card"
    [Elem "h3" [Text (if showOriginal then "Original Content" else "Redacted Preview")];
     Elem "div"
       (match (if showOriginal then originalText else redactedText) with
        | Given s => [Text s]
        | _ => []
        end)].

Definition entities_of (piiEntities : Prop_ (list PiiEntity)) : list PiiEntity :=
  nullish (default [] piiEntities) [].

Definition RedactionPreview (showOriginal : bool)
    (originalText redactedText : Prop_ string)
    (piiEntities : Prop_ (list PiiEntity)) : Node :=
  let originalText := default "" originalText in
  let redactedText := default "" redactedText in
  let entities := entities_of piiEntities in
  Elem "div"
    [Elem "div"
       [Elem "h2" [Text "Redaction Results"];
        Elem "div"
          [Elem "Button" [Text (if showOriginal then "Hide Original" else "Show Original")];
           Elem "Button" [Text "Download"]]];
     Elem "div" [text_card showOriginal originalText redactedText; pii_card entities]].

(** What the card shows: the number in its heading and its rows. *)
Definition displayed_count (card : Node) : option Z :=
  match card with
  | Elem _ (Elem _ [_; Num n; _] :: _) => Some n
  | _ => None
  end.

Definition card_body (card : Node) : list Node :=
  match card with
  | Elem _ [_; Elem _ body] => body
  | _ => []
  end.

(** The detected-PII card inside the rendered component. *)
Definition detected_card (root : Node) : option Node :=
  match root with
  | Elem _ [_; Elem _ [_; card]] => Some card
  | _ => None
  end.

End RedactionPreview.

(** ** The detection-and-redaction engine

    The engine runs in the backend, which is not among the sources; the page
    only posts to it.  It is modelled here from the specification, with the
    extractor, the detector and the applier left as parameters. *)

Module Engine.
Import RedactionConfig.

(** Modelled from the spec: the error taxonomy of section 7; the backend that
    raises these errors is missing from the sources. *)
Inductive ErrorKind : Type :=
| UnsupportedFormat | CorruptDocument | PasswordRequired | InvalidPassword
| OcrTimeout | OcrEngineUnavailable | RedactionIntegrityFailure.

(** Modelled from the spec: the sensitivity levels of section 3, as the
    missing backend receives them. *)
Inductive SensitivityLevel : Type := low | medium | high.

(** Modelled from the spec: the included-type sets of section 4.4; the
    backend detector that applies them is missing from the sources. *)
Definition included (level : SensitivityLevel) : list PiiType :=
  match level with
  | low => [Aadhaar; PAN]
  | medium => [Aadhaar; PAN; Passport; DrivingLicense; Phone]
  | high => all_types
  end.

(** Modelled from the spec: a match of section 3 (type, matched text and
    offsets in the logical text of its page); the detector that produces it
    is missing from the sources. *)
Record PiiMatch : Type := {
  type : PiiType;
  matched : string;
  span_start : nat;
  span_end : nat
}.

(** Does [needle] occur in [hay]? *)
Fixpoint occurs (needle hay : string) : bool :=
  match JS.strip_prefix needle hay with
  | Some _ => true
  | None =>
      match hay with
      | EmptyString => false
      | String _ r => occurs needle r
      end
  end.

Definition bindE {A B} (r : ErrorKind + A) (k : A -> ErrorKind + B) : ErrorKind + B :=
  match r with
  | inl e => inl e
  | inr a => k a
  end.

Section Pipeline.

(** Text runs of a native page, or the raster of a scanned one. *)
Variable Content : Type.

(** Modelled from the spec: the pages and the document of section 3, built
    by the missing classifier. *)
Record Page : Type := {
  index : nat;
  isScanned : bool;
  content : Content
}.

Record Document : Type := {
  pages : list Page;
  encrypted : bool
}.

(** The components the spec describes only by their interface, and that the
    sources do not hold: DocumentClassifier, the opening of an encrypted
    document, TextExtractor (native or optical, by page), PiiDetector over
    all types, and RedactionPlanner followed by RedactionApplier on one
    page. *)
Variable classify : string -> ErrorKind + Document.
Variable unlock : Document -> string -> option Document.
Variable extract_text : Page -> ErrorKind + string.
Variable detect_pii : string -> list PiiMatch.
Variable apply_redactions : Page -> list PiiMatch -> Page.

(** Modelled from the spec: the Decryptor of section 4.2, missing from the
    sources. *)
Definition decrypt (doc : Document) (password : option string) : ErrorKind + Document :=
  if encrypted doc then
    match password with
    | None => inl PasswordRequired
    | Some pw =>
        match unlock doc pw with
        | Some d => inr d
        | None => inl InvalidPassword
        end
    end
  else inr doc.

(** Modelled from the spec: the gating of the detector by sensitivity level
    (section 4.4), missing from the sources. *)
Definition detect (level : SensitivityLevel) (text : string) : list PiiMatch :=
  filter (fun m => existsb (PiiType_eqb (type m)) (included level)) (detect_pii text).

(** Modelled from the spec: the post-condition check of section 4.6, missing
    from the sources.  On a native page the text is extracted again and
    searched for the matched text; on a scanned page detection is run again
    and searched for a match of that text. *)
Definition still_detectable (level : SensitivityLevel) (out : Page) (text' : string)
    (m : PiiMatch) : bool :=
  if isScanned out
  then existsb (fun m' => String.eqb (matched m') (matched m)) (detect level text')
  else occurs (matched m) text'.

(** Modelled from the spec: extract, detect, plan and apply on one page, then
    the post-condition check, failing closed (sections 4.3 to 4.6); missing
    from the sources. *)
Definition redact_page (level : SensitivityLevel) (p : Page) : ErrorKind + Page :=
  bindE (extract_text p) (fun text =>
  let found := detect level text in
  let out := apply_redactions p found in
  bindE (extract_text out) (fun text' =>
  if existsb (still_detectable level out text') found
  then inl RedactionIntegrityFailure
  else inr out)).

Fixpoint redact_pages (level : SensitivityLevel) (ps : list Page) : ErrorKind + list Page :=
  match ps with
  | [] => inr []
  | p :: ps' =>
      bindE (redact_page level p) (fun out =>
      bindE (redact_pages level ps') (fun outs => inr (out :: outs)))
  end.

(** Modelled from the spec: the data flow of section 2, from bytes to the
    assembled pages; missing from the sources.  The byte serialisation of the
    assembled pages is left out. *)
Definition redact (bytes : string) (level : SensitivityLevel) (password : option string)
  : ErrorKind + list Page :=
  bindE (classify bytes) (fun doc =>
  bindE (decrypt doc password) (fun doc' =>
  redact_pages level (pages doc'))).

(** What the claim asks of one page [p] and its redacted form [out]: the
    text of [p] is read and searched for PII, [out] is [p] with the matches
    redacted, and reading [out] again finds none of the matched texts --
    not in the extracted text of a native page, not among the detections on
    a scanned one. *)
Definition page_clean (level : SensitivityLevel) (p out : Page) : Prop :=
  exists text text' : string,
    extract_text p = inr text /\
    out = apply_redactions p (detect level text) /\
    extract_text out = inr text' /\
    forall m : PiiMatch,
      In m (detect level text) ->
      (isScanned out = false -> occurs (matched m) text' = false) /\
      (isScanned out = true ->
       forall m' : PiiMatch, In m' (detect level text') -> matched m' <> matched m).

End Pipeline.

Arguments index {Content} _.
Arguments isScanned {Content} _.
Arguments content {Content} _.
Arguments pages {Content} _.
Arguments encrypted {Content} _.

End Engine.

(** ** A stand-in engine for running the pipeline on a one-page digital PDF *)

Module EngineSample.
Import RedactionConfig Engine.









End EngineSample.

(** ** Concrete inputs for the examples *)

Module Samples.
Import JS Page.

Definition statement_pdf : File := {| name := "statement.pdf"; contents := "%PDF-1.7" |}.

Definition scan_png : File := {| name := "scan.PNG"; contents := "PNG" |}.

Definition json_blob (text : string) : Blob :=
  {| blob_type := "application/json"; blob_bytes := text |}.

Definition pdf_blob (bytes : string) : Blob :=
  {| blob_type := "application/pdf"; blob_bytes := bytes |}.

(** An object of string fields, as JSON text. *)
Fixpoint json_fields (fields : list (string * string)) : string :=
  match fields with
  | [] => ""
  | [(k, v)] => Json.quoted k ++ ":" ++ Json.quoted v
  | (k, v) :: rest => Json.quoted k ++ ":" ++ Json.quoted v ++ "," ++ json_fields rest
  end.

Definition json_object (fields : list (string * string)) : string :=
  "{" ++ json_fields fields ++ "}".

(** A backend that answers every request the same way. *)
Definition always (elapsed : Z) (reply : ServerReply) : Server := fun _ => (elapsed, reply).

Definition locked (message : string) : ServerReply :=
  HttpReply 423 []
    (json_blob (json_object [("error", "password_required"); ("message", message)])).

(** The page once [file] has been chosen. *)
Definition chosen (file : File) : World :=
  dispatch Json.JSON_parse (FileUploaded file) (initial_world 0).

Definition tax_pdf : File := {| name := "secret_tax.pdf"; contents := "%PDF-1.4" |}.

(** A first request that succeeds, a reset, and a second upload answered
    with a Content-Disposition header that names no file. *)
Definition first_done : World :=
  dispatch Json.JSON_parse
    (Proceed (always 800 (HttpReply 200 [] (pdf_blob "%PDF-1.4 redacted"))))
    (chosen tax_pdf).

Definition after_reset : World := dispatch Json.JSON_parse StartOver first_done.

Definition second_done : World :=
  dispatch Json.JSON_parse
    (Proceed (always 900
                (HttpReply 200 [("content-disposition", "attachment")]
                   (pdf_blob "%PDF-1.7 redacted"))))
    (dispatch Json.JSON_parse (FileUploaded statement_pdf) after_reset).

End Samples.

(** ** The [RedactionConfig] component (lines 55-143) *)

Module RedactionConfigView.
Import RedactionConfig.

(** One level card: the level it shows and whether it is drawn selected;
    a click on it calls [onSelectLevel] with the id of its level. *)
Record CardView : Type := {
  card_level : Level;
  isSelected : bool
}.

Record View : Type := {
  shown_fileName : string;
  cards : list CardView;
  proceed_disabled : bool
}.

Definition RedactionConfig (selectedLevel fileName : string) : View :=
  {| shown_fileName := fileName;
     cards := map (fun level =>
                     {| card_level := level;
                        isSelected := String.eqb selectedLevel (id level) |})
                  levels;
     proceed_disabled := negb (JS.truthy_str selectedLevel) |}.

(** [onClick={() => onSelectLevel(level.id)}] *)
Definition card_click (c : CardView) : string := id (card_level c).

Definition selected_cards (v : View) : list Level :=
  map card_level (filter isSelected (cards v)).

End RedactionConfigView.

(** ** The step indicator of the page (lines 161-185) and [StepDot] *)

Module StepIndicator.
Import Page.

Record DotView : Type := {
  dot_class : string;
  text_class : string;
  dot_label : string
}.

Definition StepDot (active done : bool) (label : string) : DotView :=
  {| dot_class := if active then "bg-blue-400 shadow-lg shadow-blue-400/50"
                  else if done then "bg-emerald-400" else "bg-gray-600";
     text_class := if active then "text-blue-400 font-medium"
                   else if done then "text-emerald-400" else "text-gray-600";
     dot_label := label |}.

Definition step_eqb (a b : Step) : bool :=
  match a, b with
  | Upload, Upload | Configure, Configure | Password, Password
  | Processing, Processing | Result, Result => true
  | _, _ => false
  end.

(** [None] when the indicator is not rendered. *)
Definition indicator (step : Step) : option (list DotView) :=
  if negb (step_eqb step Upload) then
    Some [StepDot false true "Upload";
          StepDot (step_eqb step Configure || step_eqb step Password)
                  (step_eqb step Processing || step_eqb step Result) "Configure";
          StepDot (step_eqb step Processing) (step_eqb step Result) "Process";
          StepDot (step_eqb step Result) false "Download"]
  else None.

(** How a dot is drawn, read off its class. *)
Inductive Look : Type := Active | Done | Pending.

Definition look (d : DotView) : option Look :=
  if String.eqb (dot_class d) "bg-blue-400 shadow-lg shadow-blue-400/50" then Some Active
  else if String.eqb (dot_class d) "bg-emerald-400" then Some Done
  else if String.eqb (dot_class d) "bg-gray-600" then Some Pending
  else None.

End StepIndicator.

(** ** The [FileUpload] component *)

Module FileUpload.
Import Page.

Record State : Type := {
  selectedFile : option File;
  isDragging : bool
}.


(** [files?.[0]], for a file list that may be missing or empty. *)
Definition first_file (files : option (list File)) : option File :=
  match files with
  | Some (f :: _) => Some f
  | _ => None
  end.

Inductive Event : Type :=
| DragOver
| DragLeave
| Drop (files : option (list File))
| FileSelect (files : option (list File))
| UploadClick
| ClearClick.

Definition handleDragOver (s : State) : State :=
  {| selectedFile := selectedFile s; isDragging := true |}.

Definition handleDragLeave (s : State) : State :=
  {| selectedFile := selectedFile s; isDragging := false |}.

Definition handleDrop (files : option (list File)) (s : State) : State :=
  match first_file files with
  | Some file => {| selectedFile := Some file; isDragging := false |}
  | None => {| selectedFile := selectedFile s; isDragging := false |}
  end.

Definition handleFileSelect (files : option (list File)) (s : State) : State :=
  match first_file files with
  | Some file => {| selectedFile := Some file; isDragging := isDragging s |}
  | None => s
  end.

(** The file handed to [onFileUpload], if the callback is called. *)
Definition handleUploadClick (s : State) : option File := selectedFile s.

Definition clear (s : State) : State :=
  {| selectedFile := None; isDragging := isDragging s |}.

(** One event: the next state and the call of [onFileUpload] it makes. *)
Definition handle (s : State) (e : Event) : State * option File :=
  match e with
  | DragOver => (handleDragOver s, None)
  | DragLeave => (handleDragLeave s, None)
  | Drop files => (handleDrop files s, None)
  | FileSelect files => (handleFileSelect files s, None)
  | UploadClick => (s, handleUploadClick s)
  | ClearClick => (clear s, None)
  end.

(** A run of events: the last state and the files uploaded, oldest first. *)
Fixpoint run (s : State) (events : list Event) : State * list File :=
  match events with
  | [] => (s, [])
  | e :: rest =>
      let '(s', call) := handle s e in
      let '(final, calls) := run s' rest in
      (final, match call with Some f => f :: calls | None => calls end)
  end.


(** [file.size] *)
Definition size (f : File) : N := N.of_nat (String.length (contents f)).

(** Decimal digits of a natural number. *)
Definition decimal (n : N) : string := NilZero.string_of_uint (N.to_uint n).

(** The integer [n] nearest to ten times [num / den], the larger one on a
    tie, for an even [den]: the digits [x.toFixed(1)] prints for
    [x = num / den].  The quotients of [formatSize] divide by a power of
    two, so for sizes below 2^53 the floating-point [x] is that quotient
    exactly. *)
Definition tenths (num den : N) : N := ((10 * num + den / 2) / den)%N.

Definition toFixed1 (n : N) : string :=
  decimal (n / 10) ++ "." ++ decimal (n mod 10).

Definition formatSize (bytes : N) : string :=
  if (bytes <? 1024)%N then decimal bytes ++ " B"
  else if (bytes <? 1024 * 1024)%N then toFixed1 (tenths bytes 1024) ++ " KB"
  else toFixed1 (tenths bytes (1024 * 1024)) ++ " MB".

(** The preview row under the drop zone: name and size of the selection. *)
Definition preview (s : State) : option (string * string) :=
  match selectedFile s with
  | Some f => Some (name f, formatSize (size f))
  | None => None
  end.

End FileUpload.

(** ** Concrete inputs for the further properties *)

Module MoreSamples.

Definition no_level : RedactionConfig.Level :=
  {| RedactionConfig.id := ""; RedactionConfig.title := "";
     RedactionConfig.description := ""; RedactionConfig.items := [];
     RedactionConfig.icon := ""; RedactionConfig.gradient := "";
     RedactionConfig.border := ""; RedactionConfig.glow := "";
     RedactionConfig.iconColor := ""; RedactionConfig.badge := "";
     RedactionConfig.pillColor := "" |}.

(** The third card of the configure screen drawn for the level medium. *)
Definition maximum_card : RedactionConfigView.CardView :=
  nth 2 (RedactionConfigView.cards
           (RedactionConfigView.RedactionConfig "medium" "statement.pdf"))
        {| RedactionConfigView.card_level := no_level;
           RedactionConfigView.isSelected := false |}.

(** An upload component that holds a file while something is dragged over. *)
Definition holding : FileUpload.State :=
  {| FileUpload.selectedFile := Some Samples.statement_pdf;
     FileUpload.isDragging := true |}.

End MoreSamples.

(** ** Vocabulary of the further properties *)

Module Vocabulary.
Import JS.

(** Nothing, or one double quote. *)
Definition optional_quote (q : string) : Prop := q = "" \/ q = String dquote "".




End Vocabulary.

(** * Properties *)

(** ** Strings *)

Section StringFacts.
Import JS.

Lemma trimStart_all_white (s : string) : all_white s = true -> trimStart s = "".
Proof.
  unfold all_white.
  induction s as [|c r IH]; simpl; [reflexivity|].
  intros H. apply andb_prop in H as [Hc Hr].
  rewrite Hc. now apply IH.
Qed.

Lemma trim_all_white (s : string) : all_white s = true -> trim s = "".
Proof.
  intros H. unfold trim. now rewrite (trimStart_all_white s H).
Qed.

Lemma append_nil_r (s : string) : s ++ "" = s.
Proof. induction s as [|c r IH]; cbn; [reflexivity | now rewrite IH]. Qed.

Lemma append_assoc (a b c : string) : (a ++ b) ++ c = a ++ (b ++ c).
Proof. induction a as [|x a IH]; cbn; [reflexivity | now rewrite IH]. Qed.

(** The lazy group runs up to the closing quote at the end of the header. *)
Lemma lazy_group_closing_quote (y acc : string) :
  no_line_terminator y = true ->
  lazy_group acc (y ++ String dquote "") = Some (acc ++ y).
Proof.
  unfold no_line_terminator. revert acc.
  induction y as [|c y IH]; intros acc H; cbn in H |- *.
  - now rewrite append_nil_r.
  - apply andb_prop in H as [Hc Hy].
    replace (String.eqb (y ++ String dquote "") "") with false
      by (destruct y; reflexivity).
    rewrite andb_false_r.
    destruct (is_line_terminator c); [discriminate|].
    rewrite (IH _ Hy), append_assoc. reflexivity.
Qed.

(** X5. The usual header: the name between the quotes is what the page takes. *)
Lemma match_filename_attachment (c : ascii) (x : string) :
  no_line_terminator (String c x) = true ->
  match_filename ("attachment; filename=" ++ String dquote (String c x ++ String dquote ""))
  = Some (String c x).
Proof.
  intros H. unfold no_line_terminator in H. cbn in H.
  apply andb_prop in H as [Hc Hx].
  cbn. destruct (is_line_terminator c); [discriminate|].
  now rewrite (lazy_group_closing_quote x (String c "") Hx).
Qed.

Lemma has_dot_lowercase_suffix (r e : string) :
  has_dot (lowercase (r ++ String "."%char e)) = true.
Proof.
  induction r as [|c r IH]; cbn.
  - reflexivity.
  - rewrite IH. apply orb_true_r.
Qed.

Lemma extension_without_dot (s : string) :
  has_dot s = true -> existsb (String.eqb s) extensions = false.
Proof.
  intros H. unfold extensions. cbn [existsb].
  repeat match goal with
         | |- context [String.eqb s ?e] =>
             let E := fresh "E" in
             destruct (String.eqb s e) eqn:E;
             [apply String.eqb_eq in E; subst s; discriminate H|]
         end.
  reflexivity.
Qed.

(** A name that ends in a dot and one of the extensions loses exactly that
    ending. *)
Lemma strip_extension_suffix (base ext : string) :
  In ext extensions ->
  strip_extension (base ++ String "."%char ext) = base.
Proof.
  intros Hin. induction base as [|c base IH].
  - cbn in Hin.
    repeat (destruct Hin as [<- | Hin]; [reflexivity|]). contradiction.
  - cbn [append strip_extension]. unfold extension_at.
    rewrite (extension_without_dot _ (has_dot_lowercase_suffix base ext)).
    rewrite andb_false_r. now rewrite IH.
Qed.

End StringFacts.

(** ** The handlers of the page *)

(** Symbolic execution of a handler: the world is opened into its cells, so
    that every projection computes. *)
Ltac open_world w :=
  destruct w as [[? ? ? ? ? ? ? ? ?] ? ? ? ?];
  cbn [Page.st Page.now Page.next_url Page.live Page.log
       Page.step Page.selectedFile Page.redactionLevel Page.redactedPdfUrl
       Page.downloadFilename Page.error Page.processingTime Page.pdfPassword
       Page.passwordError] in *.

Ltac exec :=
  cbv [Page.bind Page.try_catch Page.setStep Page.setError Page.setPasswordError
       Page.setPdfPassword Page.setRedactedPdfUrl Page.setProcessingTime
       Page.setDownloadFilename Page.setSelectedFile Page.setRedactionLevel
       Page.with_st Page.Date_now Page.axios_post
       Page.when Page.parse Page.lift Page.ret Page.throw Page.return_
       Page.console_error Page.emit Page.createObjectURL Page.revokeObjectURL
       Page.click_download Page.suggest_filename
       Page.st Page.now Page.next_url Page.live Page.log
       Page.step Page.selectedFile Page.redactionLevel Page.redactedPdfUrl
       Page.downloadFilename Page.error Page.processingTime Page.pdfPassword
       Page.passwordError Page.status Page.headers Page.data
       Page.render Page.alert_box fst snd].

Ltac enter_doRedact w Hfile :=
  open_world w; unfold Page.run, Page.doRedact;
  cbn [Page.selectedFile]; rewrite Hfile; exec.

(** Case analysis on a scrutinee that holds no other case analysis. *)
Ltac split_innermost :=
  match goal with
  | |- context [match ?x with _ => _ end] =>
      lazymatch x with
      | context [match _ with _ => _ end] => fail
      | _ => destruct x
      end
  end.


Section PageFacts.
Import JS Page.

Variable JSON_parse : string -> option JSValue.

(** C9. Called while no file is selected, [doRedact] returns at once and
    leaves the whole world as it was: nothing is posted, and the step, the
    error and the password error keep their values. *)
Theorem doRedact_without_file :
  forall (cl : State) (srv : Server) (password : option string) (w : World),
    selectedFile cl = None ->
    run (doRedact JSON_parse cl srv password) w = w.
Proof.
  intros cl srv password w Hnone.
  unfold run, doRedact. rewrite Hnone. reflexivity.
Qed.

(** C8. With a password that is empty or all white space,
    [handlePasswordSubmit] only sets the password error to the fixed prompt:
    the effect log (so the network), the step and every other cell are
    untouched. *)
Theorem handlePasswordSubmit_blank :
  forall (cl : State) (srv : Server) (w : World),
    all_white (pdfPassword cl) = true ->
    let w' := run (handlePasswordSubmit JSON_parse cl srv) w in
    passwordError (st w') = VStr "Please enter the password." /\
    log w' = log w /\ live w' = live w /\ now w' = now w /\
    step (st w') = step (st w) /\
    selectedFile (st w') = selectedFile (st w) /\
    redactionLevel (st w') = redactionLevel (st w) /\
    redactedPdfUrl (st w') = redactedPdfUrl (st w) /\
    downloadFilename (st w') = downloadFilename (st w) /\
    error (st w') = error (st w) /\
    processingTime (st w') = processingTime (st w) /\
    pdfPassword (st w') = pdfPassword (st w).
Proof.
  intros cl srv w Hblank.
  unfold run, handlePasswordSubmit.
  rewrite (trim_all_white _ Hblank). cbn.
  repeat split.
Qed.

(** C2. On a 423 reply whose body carries the code [password_required] the
    flow moves to the password step with no generic error.  Sent without a
    password, the password error is [null] and the prompt shows no alert;
    sent with one, the password error is the message of the server and the
    prompt shows it. *)
Theorem doRedact_password_required :
  forall (w : World) (srv : Server) (password : option string) (file : File)
         (elapsed : Z) (hs : list (string * string)) (body : Blob)
         (errorData message : JSValue),
    selectedFile (st w) = Some file ->
    srv (build_form file (redactionLevel (st w)) password)
      = (elapsed, HttpReply 423 hs body) ->
    JSON_parse (blob_text body) = Some errorData ->
    get_prop errorData "error" = inr (VStr "password_required") ->
    get_prop errorData "message" = inr message ->
    let w' := run (doRedact JSON_parse (st w) srv password) w in
    step (st w') = Password /\
    error (st w') = VNull /\
    pdfPassword (st w') = "" /\
    passwordError (st w') = (if password_truthy password then message else VNull) /\
    render (st w') =
      PasswordScreen (name file)
        (if password_truthy password then alert_box message else None) "".
Proof.
  intros w srv password file elapsed hs body errorData message
         Hfile Hsrv Hparse Hcode Hmsg.
  enter_doRedact w Hfile. rewrite Hsrv.
  cbn [Z.eqb Pos.eqb Z.ltb Z.compare Pos.compare Pos.compare_cont].
  rewrite Hparse, Hcode. cbn [strict_eq_str String.eqb Ascii.eqb Bool.eqb].
  rewrite Hmsg.
  destruct (password_truthy password); repeat split.
Qed.



(** X9. With a Content-Disposition header that names no file, the download
    name is the one the state already held. *)
Lemma doRedact_success_unnamed :
  forall (w : World) (srv : Server) (password : option string) (file : File)
         (elapsed sc : Z) (hs : list (string * string)) (body : Blob),
    selectedFile (st w) = Some file ->
    srv (build_form file (redactionLevel (st w)) password)
      = (elapsed, HttpReply sc hs body) ->
    (sc < 400)%Z ->
    suggested_name file hs = None ->
    let w' := run (doRedact JSON_parse (st w) srv password) w in
    step (st w') = Result /\
    downloadFilename (st w') = downloadFilename (st w).
Proof.
  intros w srv password file elapsed sc hs body Hfile Hsrv Hsc Hname.
  enter_doRedact w Hfile. rewrite Hsrv.
  assert (H500 : (sc <? 500)%Z = true) by lia.
  assert (H423 : (sc =? 423)%Z = false) by lia.
  assert (H400 : (sc >=? 400)%Z = false) by lia.
  rewrite H500, H423, H400.
  unfold suggested_name in Hname.
  destruct (assoc "content-disposition" hs) as [disposition|]; [|discriminate].
  destruct (truthy_str disposition); [|discriminate].
  rewrite Hname. split; reflexivity.
Qed.

(** [doRedact] never touches the selected file or the level. *)
Lemma doRedact_frame :
  forall (cl : State) (srv : Server) (password : option string) (w : World),
    let w' := run (doRedact JSON_parse cl srv password) w in
    redactionLevel (st w') = redactionLevel (st w) /\
    selectedFile (st w') = selectedFile (st w).
Proof.
  intros cl srv password w. open_world w. unfold run, doRedact.
  destruct cl as [? [file|] ? ? ? ? ? ? ?]; cbn [selectedFile];
    [|split; reflexivity].
  exec.
  repeat split_innermost; split; reflexivity.
Qed.

(** The level of a reachable page is one of the ids of the table. *)
Lemma reachable_level :
  forall w : World,
    reachable JSON_parse w -> In (redactionLevel (st w)) RedactionConfig.level_ids.
Proof.
  induction 1 as [t | w e Hreach IH Hen].
  - cbn. right; left; reflexivity.
  - unfold dispatch. destruct e as [file|level|srv|value|srv| |]; cbn [handler].
    + exact IH.
    + destruct Hen as (_ & _ & Hin). exact Hin.
    + unfold handleProceed.
      destruct (doRedact_frame (st w) srv None w) as [-> _]. exact IH.
    + exact IH.
    + unfold handlePasswordSubmit.
      destruct (negb (truthy_str (trim (pdfPassword (st w))))).
      * exact IH.
      * destruct (doRedact_frame (st w) srv (Some (pdfPassword (st w))) w) as [-> _].
        exact IH.
    + unfold run, handleReset.
      destruct (redactedPdfUrl (st w)); cbn; right; left; reflexivity.
    + unfold run, handleDownload. destruct (redactedPdfUrl (st w)); exact IH.
Qed.

(** C6. The request a reachable page posts holds the selected file and the
    level, which is one of low, medium and high, and nothing else but a
    password field, present exactly when the argument is a non-empty
    string; one request is posted per call. *)
Theorem doRedact_request :
  forall (w : World) (srv : Server) (password : option string) (file : File),
    reachable JSON_parse w ->
    selectedFile (st w) = Some file ->
    let w' := run (doRedact JSON_parse (st w) srv password) w in
    let request :=
      ([("file", FFile file); ("redaction_level", FString (redactionLevel (st w)))]
       ++ match password with
          | Some p => if String.eqb p "" then [] else [("password", FString p)]
          | None => []
          end)%list in
    In (redactionLevel (st w)) ["low"; "medium"; "high"] /\
    exists later : list Effect,
      log w' = (later ++ Post "http://localhost:8000/redact" request :: log w)%list /\
      existsb is_post later = false.
Proof.
  intros w srv password file Hreach Hfile.
  split; [exact (reachable_level w Hreach)|].
  revert Hfile. clear Hreach. intros Hfile.
  enter_doRedact w Hfile. unfold build_form, truthy_str.
  assert (Hpw : match password with
                | Some p => if negb (p =? "") then [("password", FString p)] else []
                | None => []
                end
                = match password with
                  | Some p => if p =? "" then [] else [("password", FString p)]
                  | None => []
                  end).
  { destruct password as [p|]; [destruct (p =? "")|]; reflexivity. }
  cbn [app]. rewrite Hpw.
  generalize (match password with
              | Some p => if p =? "" then [] else [("password", FString p)]
              | None => []
              end).
  intros pw. repeat split_innermost;
    first [ exists []; split; reflexivity
          | eexists [_]; split; reflexivity ].
Qed.

(** What [handleReset] does restore: eight of the nine cells, after the
    object URL of the previous result has been revoked. *)
Lemma handleReset_restores :
  forall w : World,
    let w' := run (handleReset (st w)) w in
    step (st w') = Upload /\
    selectedFile (st w') = None /\
    redactedPdfUrl (st w') = None /\
    redactionLevel (st w') = "medium" /\
    error (st w') = VNull /\
    processingTime (st w') = None /\
    pdfPassword (st w') = "" /\
    passwordError (st w') = VNull /\
    log w' = match redactedPdfUrl (st w) with
             | Some u => RevokeObjectURL u :: log w
             | None => log w
             end /\
    live w' = match redactedPdfUrl (st w) with
              | Some u => filter (fun e => negb (url_eqb (fst e) u)) (live w)
              | None => live w
              end.
Proof.
  intros w. open_world w. unfold run, handleReset.
  cbn [redactedPdfUrl].
  match goal with
  | |- context [match ?x with Some _ => _ | None => _ end] => destruct x
  end; exec; repeat split.
Qed.

(** The ninth cell is left as it was. *)
Lemma handleReset_downloadFilename :
  forall w : World,
    downloadFilename (st (run (handleReset (st w)) w)) = downloadFilename (st w).
Proof.
  intros w. open_world w. unfold run, handleReset.
  cbn [redactedPdfUrl].
  match goal with
  | |- context [match ?x with Some _ => _ | None => _ end] => destruct x
  end; exec; reflexivity.
Qed.

End PageFacts.

(** ** The theorems at concrete inputs *)

Section PageWitnesses.
Import JS Page.

Lemma doRedact_without_file_witness :
  selectedFile initial_state = None /\
  run (doRedact Json.JSON_parse initial_state
         (Samples.always 10 NetworkError) (Some "hunter2")) (initial_world 0)
  = initial_world 0.
Proof.
  split; [reflexivity|].
  apply (doRedact_without_file Json.JSON_parse); reflexivity.
Defined.

Lemma handlePasswordSubmit_blank_witness :
  let cl := st (run (setPdfPassword "   ")
                  (run (setStep Password) (Samples.chosen Samples.statement_pdf))) in
  all_white (pdfPassword cl) = true /\
  step (st (run (handlePasswordSubmit Json.JSON_parse cl
                   (Samples.always 10 (Samples.locked "Invalid password")))
              (run (setPdfPassword "   ")
                 (run (setStep Password) (Samples.chosen Samples.statement_pdf)))))
  = Password.
Proof.
  split; [reflexivity|].
  apply (handlePasswordSubmit_blank Json.JSON_parse); reflexivity.
Defined.

Lemma doRedact_password_required_witness :
  let w := Samples.chosen Samples.statement_pdf in
  let srv := Samples.always 10 (Samples.locked "Invalid password") in
  let w' := run (doRedact Json.JSON_parse (st w) srv (Some "hunter2")) w in
  step (st w') = Password /\
  passwordError (st w') = VStr "Invalid password" /\
  render (st w') = PasswordScreen "statement.pdf" (Some (VStr "Invalid password")) "".
Proof.
  pose proof (doRedact_password_required Json.JSON_parse
                (Samples.chosen Samples.statement_pdf)
                (Samples.always 10 (Samples.locked "Invalid password"))
                (Some "hunter2") Samples.statement_pdf 10 []
                (Samples.json_blob
                   (Samples.json_object
                      [("error", "password_required"); ("message", "Invalid password")]))
                (VObj [("message", VStr "Invalid password");
                       ("error", VStr "password_required")])
                (VStr "Invalid password")
                eq_refl eq_refl eq_refl eq_refl eq_refl) as H.
  cbv zeta in H. destruct H as (H1 & _ & _ & H4 & H5).
  cbv zeta. split; [exact H1 | split; [exact H4 | exact H5]].
Defined.




Lemma doRedact_request_witness :
  let w := Samples.chosen Samples.statement_pdf in
  let srv := Samples.always 10 (Samples.locked "Invalid password") in
  reachable Json.JSON_parse w /\
  exists later : list Effect,
    log (run (doRedact Json.JSON_parse (st w) srv (Some "hunter2")) w)
    = (later ++ [Post "http://localhost:8000/redact"
                   [("file", FFile Samples.statement_pdf);
                    ("redaction_level", FString "medium");
                    ("password", FString "hunter2")]])%list /\
    existsb is_post later = false.
Proof.
  assert (Hreach : reachable Json.JSON_parse (Samples.chosen Samples.statement_pdf)).
  { unfold Samples.chosen. apply reach_step; [apply reach_init | reflexivity]. }
  split; [exact Hreach|].
  exact (proj2 (doRedact_request Json.JSON_parse
                  (Samples.chosen Samples.statement_pdf)
                  (Samples.always 10 (Samples.locked "Invalid password"))
                  (Some "hunter2") Samples.statement_pdf Hreach eq_refl)).
Defined.

(** C7 on a run of the page. After a first document has been redacted and
    the page reset, the state is not the initial one: the download name is
    still that of the first document.  It is then offered for the second
    document when the reply names no file. *)
Theorem handleReset_keeps_downloadFilename :
  reachable Json.JSON_parse Samples.second_done /\
  downloadFilename (st Samples.first_done) = "secret_tax_redacted.pdf" /\
  st Samples.after_reset <> initial_state /\
  downloadFilename (st Samples.after_reset) = "secret_tax_redacted.pdf" /\
  downloadFilename initial_state = "redacted_document.pdf" /\
  selectedFile (st Samples.second_done) = Some Samples.statement_pdf /\
  render (st Samples.second_done)
    = ResultScreen "medium" "secret_tax_redacted.pdf" (Some 1%Z) (BlobURL 1).
Proof.
  split.
  - unfold Samples.second_done, Samples.after_reset, Samples.first_done, Samples.chosen.
    repeat (apply reach_step; [|vm_compute; repeat split; discriminate]).
    apply reach_init.
  - repeat split. vm_compute. discriminate.
Qed.

End PageWitnesses.

(** ** The sensitivity table *)

Section LevelFacts.
Import RedactionConfig.

(** C3. The table lists Aadhaar and PAN at low; at medium what low lists
    together with Passport, DrivingLicense and Phone; at high each of the ten
    types.  No other type is listed at a level, every label of the table
    names a type, and the levels are low, medium and high. *)
Theorem levels_activate_exactly :
  (forall t, active "low" t = true <-> In t [Aadhaar; PAN]) /\
  (forall t, active "medium" t = true <->
             active "low" t = true \/ In t [Passport; DrivingLicense; Phone]) /\
  (forall t, active "high" t = true <-> In t all_types) /\
  (forall t, In t all_types) /\
  level_ids = ["low"; "medium"; "high"] /\
  forallb (fun l => forallb (fun i => match type_of_item i with
                                      | Some _ => true
                                      | None => false
                                      end) (items l)) levels = true.
Proof.
  repeat split; try (intros H; destruct t; vm_compute in H |- *;
                     intuition (try discriminate; try congruence)).
  destruct t; vm_compute; intuition.
Qed.

End LevelFacts.

(** ** The preview *)

Section PreviewFacts.
Import RedactionPreview.

(** C10. [RedactionPreview] renders for every value of the [piiEntities]
    prop.  Left undefined or passed as null it is read as the empty list: the
    heading counts 0 and the card says that no PII was detected.  For a list
    that is not empty the heading counts its length and the card holds one
    row per entity, in order. *)
Theorem RedactionPreview_total :
  forall (showOriginal : bool) (originalText redactedText : Prop_ string),
    let view := RedactionPreview showOriginal originalText redactedText in
    let empty := Elem "Card"
                   [Elem "h3" [Text "Detected PII ("; Num 0; Text ")"];
                    Elem "div" [Elem "p" [Text "No PII detected."]]] in
    entities_of Undefined = [] /\
    entities_of Null = [] /\
    detected_card (view Undefined) = Some empty /\
    detected_card (view Null) = Some empty /\
    displayed_count empty = Some 0%Z /\
    card_body empty = [Elem "p" [Text "No PII detected."]] /\
    forall (e : PiiEntity) (rest : list PiiEntity),
      exists card : Node,
        detected_card (view (Given (e :: rest))) = Some card /\
        displayed_count card = Some (Z.of_nat (length (e :: rest))) /\
        card_body card = map row (e :: rest) /\
        length (card_body card) = length (e :: rest).
Proof.
  intros showOriginal originalText redactedText view empty.
  repeat split.
  intros e rest. eexists. split; [reflexivity|].
  cbn [displayed_count card_body Nat.eqb length].
  repeat split. cbn. now rewrite length_map.
Qed.

End PreviewFacts.

(** ** The engine, as specified *)

Section EngineFacts.
Import Engine.

Variable Content : Type.
Variable classify : string -> ErrorKind + Document Content.
Variable unlock : Document Content -> string -> option (Document Content).
Variable extract_text : Page Content -> ErrorKind + string.
Variable detect_pii : string -> list PiiMatch.
Variable apply_redactions : Page Content -> list PiiMatch -> Page Content.


Lemma redact_page_clean :
  forall (level : SensitivityLevel) (p out : Page Content),
    redact_page Content extract_text detect_pii apply_redactions level p = inr out ->
    page_clean Content extract_text detect_pii apply_redactions level p out.
Proof.
  intros level p out H. unfold redact_page, bindE in H.
  destruct (extract_text p) as [e|text] eqn:Htext; [discriminate|].
  destruct (extract_text (apply_redactions p (detect detect_pii level text)))
    as [e|text'] eqn:Htext'; [discriminate|].
  destruct (existsb _ _) eqn:Hleak in H; [discriminate|].
  injection H as <-.
  exists text, text'. repeat split; try assumption.
  - intros Hnative.
    destruct (occurs (matched m) text') eqn:Hocc; [|reflexivity].
    assert (Hex : existsb
                    (still_detectable Content detect_pii level
                       (apply_redactions p (detect detect_pii level text)) text')
                    (detect detect_pii level text) = true).
    { apply existsb_exists. exists m. split; [assumption|].
      unfold still_detectable. now rewrite Hnative. }
    congruence.
  - intros Hscan m' Hm' Heq.
    assert (Hex : existsb
                    (still_detectable Content detect_pii level
                       (apply_redactions p (detect detect_pii level text)) text')
                    (detect detect_pii level text) = true).
    { apply existsb_exists. exists m. split; [assumption|].
      unfold still_detectable. rewrite Hscan.
      apply existsb_exists. exists m'. split; [assumption|].
      now apply String.eqb_eq. }
    congruence.
Qed.

Lemma redact_pages_clean :
  forall (level : SensitivityLevel) (ps outs : list (Page Content)),
    redact_pages Content extract_text detect_pii apply_redactions level ps = inr outs ->
    Forall2 (page_clean Content extract_text detect_pii apply_redactions level) ps outs.
Proof.
  intros level ps. induction ps as [|p ps IH]; intros outs H; cbn in H.
  - injection H as <-. constructor.
  - unfold bindE in H.
    destruct (redact_page _ _ _ _ level p) as [e|out] eqn:Hp; [discriminate|].
    destruct (redact_pages _ _ _ _ level ps) as [e|outs'] eqn:Hps; [discriminate|].
    injection H as <-. constructor.
    + now apply redact_page_clean.
    + now apply IH.
Qed.


(** Read to the letter -- no match at all on the output -- the round trip
    needs two more facts about the parameters: the detector reports texts
    that occur in what it scans, and redacting creates no detection that
    the input did not have. *)
Lemma redact_output_no_match :
  forall (bytes : string) (level : SensitivityLevel) (password : option string)
         (out : list (Page Content)),
    (forall (text : string) (m : PiiMatch),
        In m (detect_pii text) -> occurs (matched m) text = true) ->
    (forall (p : Page Content) (text text' : string),
        extract_text p = inr text ->
        extract_text (apply_redactions p (detect detect_pii level text)) = inr text' ->
        forall m' : PiiMatch,
          In m' (detect detect_pii level text') ->
          exists m : PiiMatch,
            In m (detect detect_pii level text) /\ matched m = matched m') ->
    redact Content classify unlock extract_text detect_pii apply_redactions
      bytes level password = inr out ->
    Forall (fun q => exists text' : string,
                extract_text q = inr text' /\ detect detect_pii level text' = [])
           out.
Proof.
  intros bytes level password out Hsound Hfresh H.
  unfold redact, bindE in H.
  destruct (classify bytes) as [e|d]; [discriminate|].
  destruct (decrypt Content unlock d password) as [e|doc]; [discriminate|].
  apply redact_pages_clean in H.
  induction H as [|p q ps qs Hclean _ IH]; constructor; [|exact IH].
  destruct Hclean as (text & text' & Htext & Hq & Htext' & Hgone).
  exists text'. split; [assumption|].
  assert (Hnone : forall m' : PiiMatch, ~ In m' (detect detect_pii level text')).
  { intros m' Hin. subst q.
    destruct (Hfresh p text text' Htext Htext' m' Hin) as (m & Hm & Heq).
    destruct (Hgone m Hm) as [Hnative Hscan].
    destruct (isScanned (apply_redactions p (detect detect_pii level text))) eqn:Hkind.
    - exact (Hscan eq_refl m' Hin (eq_sym Heq)).
    - specialize (Hnative eq_refl).
      unfold detect in Hin. apply filter_In in Hin as [Hin _].
      apply Hsound in Hin. congruence. }
  destruct (detect detect_pii level text') as [|m' rest]; [reflexivity|].
  exfalso. apply (Hnone m'). now left.
Qed.

End EngineFacts.


(** * Further properties of the code *)

(** ** The two regular expressions and [trim] *)

Section MoreStringFacts.
Import JS Vocabulary.

Lemma strip_prefix_Some (p s r : string) : strip_prefix p s = Some r <-> s = p ++ r.
Proof.
  revert s. induction p as [|a p IH]; intros s; cbn.
  - split; [now intros [= ->] | now intros ->].
  - destruct s as [|b s].
    + split; discriminate.
    + destruct (Ascii.eqb a b) eqn:E.
      * apply Ascii.eqb_eq in E as ->. rewrite IH.
        split; [now intros -> | now intros [= ->]].
      * apply Ascii.eqb_neq in E. split; [discriminate | intros [= ? ?]; congruence].
Qed.

Lemma no_line_terminator_app (a b : string) :
  no_line_terminator (a ++ b) = (no_line_terminator a && no_line_terminator b)%bool.
Proof.
  unfold no_line_terminator.
  induction a as [|c a IH]; cbn; [reflexivity|]. now rewrite IH, andb_assoc.
Qed.

Lemma extension_at_iff (s : string) :
  extension_at s = true <->
  exists e, s = String "."%char e /\ In (lowercase e) extensions.
Proof.
  unfold extension_at. destruct s as [|c r].
  - split; [discriminate | intros (e & [=] & _)].
  - rewrite andb_true_iff, Ascii.eqb_eq, existsb_exists. split.
    + intros [-> (x & Hin & Heq)]. apply String.eqb_eq in Heq as <-.
      exists r. now split.
    + intros (e & [= -> ->] & Hin). split; [reflexivity|].
      exists (lowercase e). split; [assumption | apply String.eqb_refl].
Qed.

(** X1. What [replace] with the extension pattern returns: either the name
    itself, and then the name does not end in a dot followed by one of the
    extensions in any letter case, or the name without such an ending. *)
Theorem strip_extension_spec :
  forall s : string,
    (strip_extension s = s /\
     forall base e, In (lowercase e) extensions -> s <> base ++ String "."%char e)
    \/
    (exists e, In (lowercase e) extensions /\
               s = strip_extension s ++ String "."%char e).
Proof.
  induction s as [|c r IH].
  - left. split; [reflexivity|]. intros [|? ?] e _; discriminate.
  - cbn [strip_extension]. destruct (extension_at (String c r)) eqn:Hat.
    + right. apply extension_at_iff in Hat as (e & [= -> ->] & Hin).
      exists e. now split.
    + destruct IH as [[Hsame Hnone] | (e & Hin & Hcut)].
      * left. rewrite Hsame. split; [reflexivity|].
        intros [|b base] e Hin Heq.
        -- cbn in Heq. injection Heq as -> ->.
           assert (extension_at (String "."%char e) = true)
             by (apply extension_at_iff; now exists e).
           congruence.
        -- cbn in Heq. injection Heq as _ ->. now apply (Hnone base e).
      * right. exists e. split; [assumption|]. cbn. now rewrite <- Hcut.
Qed.

(** X2. A name that ends in a dot and a recognised extension, in any letter
    case, loses that ending and nothing more, whatever comes before it. *)
Theorem strip_extension_any_case (base e : string) :
  In (lowercase e) extensions ->
  strip_extension (base ++ String "."%char e) = base.
Proof.
  intros Hin. induction base as [|c base IH].
  - cbn [append strip_extension].
    assert (H : extension_at (String "."%char e) = true)
      by (apply extension_at_iff; now exists e).
    now rewrite H.
  - cbn [append strip_extension]. unfold extension_at.
    rewrite (extension_without_dot _ (has_dot_lowercase_suffix base e)).
    rewrite andb_false_r. now rewrite IH.
Qed.

Lemma lazy_group_shape (r acc g : string) :
  lazy_group acc r = Some g ->
  exists y q, g = acc ++ y /\ r = y ++ q /\ optional_quote q /\
              no_line_terminator y = true.
Proof.
  revert acc. induction r as [|c r IH]; intros acc H; cbn in H.
  - injection H as <-. exists "", "". rewrite append_nil_r.
    repeat split. now left.
  - destruct (is_quote c && (r =? ""))%bool eqn:Hq.
    + injection H as <-. apply andb_prop in Hq as [Hc Hr].
      apply Ascii.eqb_eq in Hc as ->. apply String.eqb_eq in Hr as ->.
      exists "", (String dquote ""). rewrite append_nil_r.
      repeat split. now right.
    + destruct (is_line_terminator c) eqn:Hlt; [discriminate|].
      destruct (IH _ H) as (y & q & -> & -> & Hopt & Hy).
      exists (String c y), q. rewrite append_assoc. repeat split; try assumption.
      unfold no_line_terminator in *. cbn. now rewrite Hlt.
Qed.

Lemma group_to_end_shape (r g : string) :
  group_to_end r = Some g ->
  g <> "" /\ no_line_terminator g = true /\
  exists q, r = g ++ q /\ optional_quote q.
Proof.
  unfold group_to_end. destruct r as [|c r]; [discriminate|].
  destruct (is_line_terminator c) eqn:Hlt; [discriminate|].
  intros H. destruct (lazy_group_shape _ _ _ H) as (y & q & -> & -> & Hopt & Hy).
  cbn. repeat split.
  - discriminate.
  - unfold no_line_terminator in *. cbn. now rewrite Hlt.
  - now exists q.
Qed.

Lemma after_filename_eq_shape (r g : string) :
  after_filename_eq r = Some g ->
  g <> "" /\ no_line_terminator g = true /\
  exists q1 q2, r = q1 ++ g ++ q2 /\ optional_quote q1 /\ optional_quote q2.
Proof.
  unfold after_filename_eq.
  assert (Hplain : forall r0, group_to_end r0 = Some g ->
            g <> "" /\ no_line_terminator g = true /\
            exists q1 q2, r0 = q1 ++ g ++ q2 /\ optional_quote q1 /\ optional_quote q2).
  { intros r0 H. destruct (group_to_end_shape _ _ H) as (Hg & Hlt & q & -> & Hq).
    repeat split; try assumption. exists "", q. repeat split; [now left | assumption]. }
  destruct r as [|c r]; [apply Hplain|].
  destruct (is_quote c) eqn:Hc; [|apply Hplain].
  destruct (group_to_end r) as [g'|] eqn:Hinner; [|apply Hplain].
  intros [= <-]. apply Ascii.eqb_eq in Hc as ->.
  destruct (group_to_end_shape _ _ Hinner) as (Hg & Hlt & q & -> & Hq).
  repeat split; try assumption.
  exists (String dquote ""), q. repeat split; [now right | assumption].
Qed.

(** A match starts at some [filename=] of the header. *)
Lemma match_filename_occurs :
  forall s g : string,
    match_filename s = Some g ->
    exists pre rest,
      s = pre ++ "filename=" ++ rest /\ after_filename_eq rest = Some g.
Proof.
  induction s as [|c s IH]; intros g H; cbn [match_filename] in H.
  - destruct (filename_at "") eqn:Hat; [|discriminate]. cbn in Hat. discriminate.
  - destruct (filename_at (String c s)) as [g'|] eqn:Hat.
    + injection H as ->. unfold filename_at in Hat.
      destruct (strip_prefix "filename=" (String c s)) as [r|] eqn:Hpre; [|discriminate].
      apply strip_prefix_Some in Hpre. exists "", r. now split.
    + destruct (IH _ H) as (pre & rest & -> & Hrest).
      exists (String c pre), rest. now split.
Qed.

(** X3. When the header pattern matches, the captured name is not empty,
    holds no line break, and is everything from the first usable [filename=]
    to the end of the header, less at most one quote on either side. *)
Theorem match_filename_shape :
  forall s g : string,
    match_filename s = Some g ->
    g <> "" /\ no_line_terminator g = true /\
    exists pre q1 q2,
      s = pre ++ "filename=" ++ q1 ++ g ++ q2 /\
      optional_quote q1 /\ optional_quote q2.
Proof.
  intros s g H.
  destruct (match_filename_occurs _ _ H) as (pre & rest & -> & Hrest).
  destruct (after_filename_eq_shape _ _ Hrest) as (Hg & Hlt & q1 & q2 & -> & H1 & H2).
  repeat split; try assumption.
  exists pre, q1, q2. repeat split; assumption.
Qed.

Lemma match_filename_unfold (s : string) :
  match_filename s =
  match filename_at s with
  | Some g => Some g
  | None => match s with
            | EmptyString => None
            | String _ r => match_filename r
            end
  end.
Proof. destruct s; reflexivity. Qed.

Lemma lazy_group_total (r acc : string) :
  no_line_terminator r = true -> lazy_group acc r <> None.
Proof.
  unfold no_line_terminator. revert acc.
  induction r as [|c r IH]; intros acc H; cbn in H |- *; [discriminate|].
  apply andb_prop in H as [Hc Hr].
  destruct (is_quote c && (r =? ""))%bool; [discriminate|].
  destruct (is_line_terminator c); [discriminate|]. now apply IH.
Qed.

Lemma group_to_end_total (r : string) :
  r <> "" -> no_line_terminator r = true -> group_to_end r <> None.
Proof.
  unfold group_to_end, no_line_terminator. destruct r as [|c r]; [congruence|].
  intros _ H. cbn in H. apply andb_prop in H as [Hc Hr].
  destruct (is_line_terminator c); [discriminate|]. now apply lazy_group_total.
Qed.

Lemma after_filename_eq_total (r : string) :
  r <> "" -> no_line_terminator r = true -> after_filename_eq r <> None.
Proof.
  intros Hne Hlt. unfold after_filename_eq.
  destruct r as [|c r]; [congruence|].
  destruct (is_quote c); [|now apply group_to_end_total].
  destruct (group_to_end r); [discriminate | now apply group_to_end_total].
Qed.

(** X4. The header pattern matches exactly when some [filename=] is followed
    by at least one character and by no line break up to the end of the
    header; a header without [filename=] gives no name. *)
Theorem match_filename_matches :
  forall s : string,
    match_filename s <> None <->
    exists pre rest,
      s = pre ++ "filename=" ++ rest /\ rest <> "" /\
      no_line_terminator rest = true.
Proof.
  intros s. split.
  - destruct (match_filename s) as [g|] eqn:H; [intros _ | congruence].
    destruct (match_filename_occurs _ _ H) as (pre & rest & -> & Hrest).
    destruct (after_filename_eq_shape _ _ Hrest) as (Hg & Hlt & q1 & q2 & -> & H1 & H2).
    exists pre, (q1 ++ g ++ q2). repeat split.
    + destruct H1 as [-> | ->]; [|discriminate].
      destruct g; [congruence | discriminate].
    + rewrite !no_line_terminator_app, Hlt.
      destruct H1 as [-> | ->], H2 as [-> | ->]; reflexivity.
  - intros (pre & rest & -> & Hne & Hlt).
    induction pre as [|c pre IH].
    + change ("" ++ "filename=" ++ rest) with ("filename=" ++ rest).
      rewrite match_filename_unfold.
      assert (Hat : filename_at ("filename=" ++ rest) = after_filename_eq rest).
      { unfold filename_at.
        now rewrite (proj2 (strip_prefix_Some "filename=" _ rest) eq_refl). }
      rewrite Hat.
      pose proof (after_filename_eq_total rest Hne Hlt) as Htot.
      destruct (after_filename_eq rest); [discriminate | congruence].
    + rewrite match_filename_unfold.
      destruct (filename_at _); [discriminate | exact IH].
Qed.

End MoreStringFacts.

(** ** More on the handlers of the page *)

Section MorePageFacts.
Import JS Page.

Variable JSON_parse : string -> option JSValue.

Lemma trimEnd_empty (s : string) : trimEnd s = "" -> all_white s = true.
Proof.
  unfold all_white. induction s as [|c r IH]; cbn; [reflexivity|].
  destruct (trimEnd r) as [|d r']; [|discriminate].
  destruct (is_white c); [|discriminate]. intros _. now apply IH.
Qed.

Lemma trimStart_white (s : string) : all_white (trimStart s) = true -> all_white s = true.
Proof.
  unfold all_white. induction s as [|c r IH]; cbn; [reflexivity|].
  destruct (is_white c) eqn:Hc.
  - exact IH.
  - cbn. now rewrite Hc.
Qed.

Lemma trim_empty_iff (s : string) : trim s = "" <-> all_white s = true.
Proof.
  split; [|apply trim_all_white].
  intros H. apply trimStart_white. now apply trimEnd_empty.
Qed.

(** One request goes out per call, with the form of lines 39-44. *)
Lemma doRedact_posts_once :
  forall (w : World) (srv : Server) (password : option string) (file : File),
    selectedFile (st w) = Some file ->
    exists later : list Effect,
      log (run (doRedact JSON_parse (st w) srv password) w)
      = (later ++ Post "http://localhost:8000/redact"
                    (build_form file (redactionLevel (st w)) password) :: log w)%list /\
      existsb is_post later = false.
Proof.
  intros w srv password file Hfile.
  enter_doRedact w Hfile.
  generalize (build_form file redactionLevel0 password). intros form.
  repeat split_innermost;
    first [ exists []; split; reflexivity
          | eexists [_]; split; reflexivity ].
Qed.

(** X6. A password with at least one character that is not white space is
    submitted as typed, white space around it included: the handler is the
    call of [doRedact] with it, and the one request posted carries the file,
    the level and that very string. *)
Theorem handlePasswordSubmit_nonblank :
  forall (w : World) (srv : Server) (file : File),
    selectedFile (st w) = Some file ->
    all_white (pdfPassword (st w)) = false ->
    let typed := pdfPassword (st w) in
    let w' := run (handlePasswordSubmit JSON_parse (st w) srv) w in
    w' = run (doRedact JSON_parse (st w) srv (Some typed)) w /\
    exists later : list Effect,
      log w' = (later ++ Post "http://localhost:8000/redact"
                           [("file", FFile file);
                            ("redaction_level", FString (redactionLevel (st w)));
                            ("password", FString typed)] :: log w)%list /\
      existsb is_post later = false.
Proof.
  intros w srv file Hfile Hblank typed w'.
  assert (Htrim : truthy_str (trim typed) = true).
  { unfold truthy_str. destruct (String.eqb_spec (trim typed) "") as [E|E]; [|reflexivity].
    apply trim_empty_iff in E. unfold typed in E. congruence. }
  assert (Htyped : truthy_str typed = true).
  { unfold truthy_str. destruct (String.eqb_spec typed "") as [E|E]; [|reflexivity].
    unfold typed in E. rewrite E in Hblank. discriminate. }
  assert (Hrun : w' = run (doRedact JSON_parse (st w) srv (Some typed)) w).
  { unfold w', handlePasswordSubmit. fold typed. now rewrite Htrim. }
  split; [exact Hrun|]. rewrite Hrun.
  destruct (doRedact_posts_once w srv (Some typed) file Hfile) as (later & Hlog & Hpost).
  exists later. split; [|exact Hpost].
  rewrite Hlog. unfold build_form. now rewrite Htyped.
Qed.

(** The whole effect of one call, by the kind of reply: the helper behind
    the properties below. *)
Lemma doRedact_outcome :
  forall (w : World) (srv : Server) (password : option string) (file : File)
         (elapsed : Z) (reply : ServerReply),
    selectedFile (st w) = Some file ->
    srv (build_form file (redactionLevel (st w)) password) = (elapsed, reply) ->
    let w' := run (doRedact JSON_parse (st w) srv password) w in
    let request := Post "http://localhost:8000/redact"
                     (build_form file (redactionLevel (st w)) password) in
    selectedFile (st w') = Some file /\
    redactionLevel (st w') = redactionLevel (st w) /\
    now w' = (now w + elapsed)%Z /\
    if asks_password JSON_parse reply then
      step (st w') = Password /\ error (st w') = VNull /\
      (password_truthy password = false -> passwordError (st w') = VNull) /\
      pdfPassword (st w') = "" /\
      redactedPdfUrl (st w') = redactedPdfUrl (st w) /\
      downloadFilename (st w') = downloadFilename (st w) /\
      processingTime (st w') = processingTime (st w) /\
      live w' = live w /\ next_url w' = next_url w /\
      log w' = request :: log w
    else if is_failure reply then
      step (st w') = Configure /\ passwordError (st w') = VNull /\
      truthy (error (st w')) = true /\
      pdfPassword (st w') = pdfPassword (st w) /\
      redactedPdfUrl (st w') = redactedPdfUrl (st w) /\
      downloadFilename (st w') = downloadFilename (st w) /\
      processingTime (st w') = processingTime (st w) /\
      live w' = live w /\ next_url w' = next_url w /\
      (log w' = request :: log w \/
       log w' = ConsoleError "Redaction error:" :: request :: log w)
    else
      let u := BlobURL (next_url w) in
      let document := {| blob_type := "application/pdf";
                         blob_bytes := match reply with
                                       | HttpReply _ _ body => blob_bytes body
                                       | NetworkError => ""
                                       end |} in
      step (st w') = Result /\ error (st w') = VNull /\ passwordError (st w') = VNull /\
      pdfPassword (st w') = pdfPassword (st w) /\
      redactedPdfUrl (st w') = Some u /\
      processingTime (st w') = Some (round_div_1000 elapsed) /\
      live w' = (u, document) :: live w /\ next_url w' = S (next_url w) /\
      log w' = CreateObjectURL u document :: request :: log w.
Proof.
  intros w srv password file elapsed reply Hfile Hsrv.
  enter_doRedact w Hfile. rewrite Hsrv.
  unfold asks_password, is_failure.
  destruct reply as [|sc hs body].
  { cbn. repeat split. now right. }
  destruct (sc <? 500)%Z eqn:H500.
  2:{ assert (E1 : (sc =? 423)%Z = false) by lia.
      assert (E2 : (400 <=? sc)%Z = true) by lia.
      rewrite E1, E2. cbn. repeat split. now right. }
  destruct (sc =? 423)%Z eqn:H423.
  - assert (E2 : (400 <=? sc)%Z = true) by lia.
    assert (E3 : (sc >=? 400)%Z = true) by lia.
    rewrite E2, E3. cbn [andb].
    destruct (JSON_parse (blob_text body)) as [v|].
    2:{ cbn. repeat split. now right. }
    destruct (get_prop v "error") as [e|code] eqn:Hcode.
    { cbn. repeat split. now right. }
    destruct (strict_eq_str code "password_required").
    + destruct (password_truthy password).
      * destruct (get_prop v "message") as [e|m] eqn:Hm.
        { destruct v; cbn in Hcode, Hm; discriminate. }
        cbn. repeat split. discriminate.
      * cbn. repeat split.
    + destruct (get_prop v "detail") as [e|d] eqn:Hd.
      { destruct v; cbn in Hcode, Hd; discriminate. }
      unfold or_else. destruct (truthy d) eqn:Ht; cbn; repeat split;
        try assumption; now left.
  - cbn [andb].
    destruct (sc >=? 400)%Z eqn:H400.
    + assert (E2 : (400 <=? sc)%Z = true) by lia. rewrite E2.
      destruct (JSON_parse (blob_text body)) as [v|].
      2:{ cbn. repeat split. now left. }
      destruct (get_prop v "detail") as [e|d].
      { cbn. repeat split. now left. }
      unfold or_else. destruct (truthy d) eqn:Ht; cbn; repeat split;
        try assumption; now left.
    + assert (E2 : (400 <=? sc)%Z = false) by lia. rewrite E2.
      match goal with
      | |- context [(?t + elapsed - ?t)%Z] =>
          replace (t + elapsed - t)%Z with elapsed by lia
      end.
      destruct (assoc "content-disposition" hs) as [d|];
        [destruct (truthy_str d); [destruct (match_filename d)|]|];
        cbn; repeat split.
Qed.

Lemma nonblank_truthy (p : string) : all_white p = false -> truthy_str p = true.
Proof.
  intros H. unfold truthy_str.
  destruct (String.eqb_spec p "") as [-> | _]; [discriminate | reflexivity].
Qed.

Lemma submit_is_doRedact (cl : State) (srv : Server) :
  all_white (pdfPassword cl) = false ->
  handlePasswordSubmit JSON_parse cl srv
  = doRedact JSON_parse cl srv (Some (pdfPassword cl)).
Proof.
  intros H. unfold handlePasswordSubmit.
  assert (Htrim : truthy_str (trim (pdfPassword cl)) = true).
  { unfold truthy_str. destruct (String.eqb_spec (trim (pdfPassword cl)) "") as [E|E];
      [|reflexivity].
    apply trim_empty_iff in E. congruence. }
  now rewrite Htrim.
Qed.


(** X7. Whatever the backend answers, a call with a file selected ends on
    one of three steps, fixed by the reply: the password prompt for a 423
    carrying [password_required], the configure step for any other failure,
    the result otherwise.  The spinner of the processing step is never
    left standing. *)
Theorem doRedact_settles :
  forall (w : World) (srv : Server) (password : option string) (file : File)
         (elapsed : Z) (reply : ServerReply),
    selectedFile (st w) = Some file ->
    srv (build_form file (redactionLevel (st w)) password) = (elapsed, reply) ->
    let w' := run (doRedact JSON_parse (st w) srv password) w in
    step (st w') = (if asks_password JSON_parse reply then Password
                    else if is_failure reply then Configure
                    else Result) /\
    step (st w') <> Processing /\
    step (st w') <> Upload.
Proof.
  intros w srv password file elapsed reply Hfile Hsrv w'.
  destruct (doRedact_outcome w srv password file elapsed reply Hfile Hsrv)
    as (_ & _ & _ & H).
  fold w' in H.
  destruct (asks_password JSON_parse reply); [|destruct (is_failure reply)];
    cbv zeta in H; destruct H as (-> & _); repeat split; discriminate.
Qed.

(** X8. A call never changes the selected file or the level.  It empties the
    password box exactly when the backend asks for a password, and on every
    other reply, a successful one included, the typed password stays in the
    state.  Unless the reply is a success, the result cells and the object
    URLs are left alone. *)
Theorem doRedact_leaves_alone :
  forall (w : World) (srv : Server) (password : option string) (file : File)
         (elapsed : Z) (reply : ServerReply),
    selectedFile (st w) = Some file ->
    srv (build_form file (redactionLevel (st w)) password) = (elapsed, reply) ->
    let w' := run (doRedact JSON_parse (st w) srv password) w in
    selectedFile (st w') = selectedFile (st w) /\
    redactionLevel (st w') = redactionLevel (st w) /\
    pdfPassword (st w')
      = (if asks_password JSON_parse reply then "" else pdfPassword (st w)) /\
    if (asks_password JSON_parse reply || is_failure reply)%bool then
      redactedPdfUrl (st w') = redactedPdfUrl (st w) /\
      downloadFilename (st w') = downloadFilename (st w) /\
      processingTime (st w') = processingTime (st w) /\
      live w' = live w
    else redactedPdfUrl (st w') = Some (BlobURL (next_url w)).
Proof.
  intros w srv password file elapsed reply Hfile Hsrv w'.
  destruct (doRedact_outcome w srv password file elapsed reply Hfile Hsrv)
    as (Hf & Hl & _ & H).
  fold w' in Hf, Hl, H. rewrite Hf, Hl, Hfile.
  destruct (asks_password JSON_parse reply); [|destruct (is_failure reply)];
    cbv zeta in H; cbn [orb].
  - destruct H as (_ & _ & _ & Hp & Hu & Hd & Ht & Hlive & _). repeat split; assumption.
  - destruct H as (_ & _ & _ & Hp & Hu & Hd & Ht & Hlive & _). repeat split; assumption.
  - destruct H as (_ & _ & _ & Hp & Hu & _). repeat split; assumption.
Qed.






(** X14. The password round trip.  When the first request, sent without a
    password, is answered by the request for one, the prompt opens empty and
    without alert; once a password with a visible character is typed and
    submitted, the second request carries the same file and the same level
    as the first, and the password as typed. *)
Theorem password_retry_resubmits :
  forall (w : World) (srv1 srv2 : Server) (file : File) (elapsed : Z)
         (reply : ServerReply) (typed : string),
    selectedFile (st w) = Some file ->
    srv1 (build_form file (redactionLevel (st w)) None) = (elapsed, reply) ->
    asks_password JSON_parse reply = true ->
    all_white typed = false ->
    let w1 := dispatch JSON_parse (Proceed srv1) w in
    let w2 := dispatch JSON_parse (PasswordTyped typed) w1 in
    let w3 := dispatch JSON_parse (PasswordSubmitted srv2) w2 in
    let first := [("file", FFile file);
                  ("redaction_level", FString (redactionLevel (st w)))] in
    render (st w1) = PasswordScreen (name file) None "" /\
    render (st w2) = PasswordScreen (name file) None typed /\
    exists later : list Effect,
      log w3 = (later
                ++ Post "http://localhost:8000/redact"
                     (first ++ [("password", FString typed)])
                :: Post "http://localhost:8000/redact" first
                :: log w)%list /\
      existsb is_post later = false.
Proof.
  intros w srv1 srv2 file elapsed reply typed Hfile Hsrv Hask Hblank w1 w2 w3 first.
  pose proof (doRedact_outcome w srv1 None file elapsed reply Hfile Hsrv) as H.
  rewrite Hask in H. cbv zeta in H.
  change (run (doRedact JSON_parse (st w) srv1 None) w) with w1 in H.
  destruct H as (Hf1 & Hl1 & _ & Hs1 & He1 & Hp1 & Hpw1 & _ & _ & _ & _ & _ & Hlog1).
  specialize (Hp1 eq_refl).
  assert (Hst2 : selectedFile (st w2) = Some file /\
                 redactionLevel (st w2) = redactionLevel (st w) /\
                 step (st w2) = Password /\ passwordError (st w2) = VNull /\
                 pdfPassword (st w2) = typed /\ log w2 = log w1).
  { unfold w2, dispatch. cbn [handler]. clearbody w1. open_world w1.
    unfold run. exec. now subst. }
  destruct Hst2 as (Hf2 & Hl2 & Hs2 & Hp2 & Hpw2 & Hlog2).
  split; [|split].
  - unfold render, alert_box. rewrite Hs1, Hf1, Hp1, Hpw1. reflexivity.
  - unfold render, alert_box. rewrite Hs2, Hf2, Hp2, Hpw2. reflexivity.
  - assert (Hblank2 : all_white (pdfPassword (st w2)) = false) by now rewrite Hpw2.
    unfold w3, dispatch. cbn [handler].
    rewrite (submit_is_doRedact _ srv2 Hblank2).
    destruct (doRedact_posts_once w2 srv2 (Some (pdfPassword (st w2))) file Hf2)
      as (later & Hlog3 & Hpost).
    exists later. split; [|exact Hpost].
    rewrite Hlog3, Hlog2, Hlog1, Hl2, Hpw2.
    unfold build_form. rewrite (nonblank_truthy _ Hblank). reflexivity.
Qed.

(** On the upload step the level is the initial one. *)
Lemma reachable_upload_level :
  forall w : World,
    reachable JSON_parse w ->
    step (st w) = Upload -> redactionLevel (st w) = "medium".
Proof.
  induction 1 as [t | w e Hreach IH Hen]; [reflexivity|].
  unfold dispatch. destruct e as [file|level|srv|value|srv| |]; cbn [handler enabled] in *.
  - open_world w. unfold run, handleFileUpload. exec. discriminate.
  - destruct Hen as (Hs & _). open_world w. unfold run. exec. congruence.
  - destruct Hen as (Hs & Hf & _). unfold handleProceed.
    destruct (selectedFile (st w)) as [file|] eqn:Hfile; [|congruence].
    destruct (srv (build_form file (redactionLevel (st w)) None)) as [el reply] eqn:Hsrv.
    destruct (doRedact_outcome w srv None file el reply Hfile Hsrv) as (_ & _ & _ & H).
    destruct (asks_password JSON_parse reply); [|destruct (is_failure reply)];
      cbv zeta in H; destruct H as (-> & _); discriminate.
  - destruct Hen as (Hs & _). open_world w. unfold run. exec. congruence.
  - destruct Hen as (Hs & Hf).
    destruct (all_white (pdfPassword (st w))) eqn:Hblank.
    + unfold handlePasswordSubmit. rewrite (trim_all_white _ Hblank).
      cbn [truthy_str String.eqb negb]. open_world w. unfold run. exec. congruence.
    + rewrite (submit_is_doRedact _ _ Hblank).
      destruct (selectedFile (st w)) as [file|] eqn:Hfile; [|congruence].
      destruct (srv (build_form file (redactionLevel (st w)) (Some (pdfPassword (st w)))))
        as [el reply] eqn:Hsrv.
      destruct (doRedact_outcome w srv _ file el reply Hfile Hsrv) as (_ & _ & _ & H).
      destruct (asks_password JSON_parse reply); [|destruct (is_failure reply)];
        cbv zeta in H; destruct H as (-> & _); discriminate.
  - intros _. open_world w. unfold run, handleReset. cbn [redactedPdfUrl].
    destruct redactedPdfUrl0; exec; reflexivity.
  - destruct Hen as (Hs & _). open_world w. unfold run, handleDownload.
    cbn [redactedPdfUrl]. destruct redactedPdfUrl0; exec; congruence.
Qed.

(** X15. Every upload starts the same way: from a reachable upload step,
    the file handed over by [FileUpload] brings up the configure screen for
    that file, with no error shown, the Standard level preselected, its card
    the only one drawn selected, and the proceed button enabled. *)
Theorem upload_opens_configure :
  forall (w : World) (file : File),
    reachable JSON_parse w ->
    step (st w) = Upload ->
    let w' := dispatch JSON_parse (FileUploaded file) w in
    let view := RedactionConfigView.RedactionConfig (redactionLevel (st w')) (name file) in
    render (st w') = ConfigureScreen None "medium" (name file) /\
    map RedactionConfig.id (RedactionConfigView.selected_cards view) = ["medium"] /\
    RedactionConfigView.proceed_disabled view = false.
Proof.
  intros w file Hreach Hstep w' view.
  pose proof (reachable_upload_level w Hreach Hstep) as Hlevel.
  assert (Hst : step (st w') = Configure /\ selectedFile (st w') = Some file /\
                error (st w') = VNull /\ redactionLevel (st w') = "medium").
  { unfold w', dispatch. cbn [handler]. clear w' view. open_world w.
    unfold run, handleFileUpload. exec. now subst. }
  destruct Hst as (Hs & Hf & He & Hl).
  unfold view. rewrite Hl. split; [|split; reflexivity].
  unfold render, alert_box. now rewrite Hs, Hf, He, Hl.
Qed.

(** X16. On a reachable page exactly one level card is drawn selected and
    the proceed button is enabled, whatever was clicked before. *)
Theorem reachable_one_level_card :
  forall (w : World) (fileName : string),
    reachable JSON_parse w ->
    let view := RedactionConfigView.RedactionConfig (redactionLevel (st w)) fileName in
    length (RedactionConfigView.selected_cards view) = 1%nat /\
    map RedactionConfig.id (RedactionConfigView.selected_cards view)
      = [redactionLevel (st w)] /\
    RedactionConfigView.proceed_disabled view = false.
Proof.
  intros w fileName Hreach view.
  pose proof (reachable_level JSON_parse w Hreach) as Hin.
  unfold view. cbn in Hin.
  destruct Hin as [<- | [<- | [<- | []]]]; repeat split.
Qed.

(** X17. A click on a level card selects that card and no other: after
    the click, the view drawn from the new state has the level of the
    clicked card as its one selected card. *)
Theorem card_click_selects :
  forall (w : World) (fileName : string) (card : RedactionConfigView.CardView),
    In card (RedactionConfigView.cards
               (RedactionConfigView.RedactionConfig (redactionLevel (st w)) fileName)) ->
    let w' := dispatch JSON_parse (LevelSelected (RedactionConfigView.card_click card)) w in
    RedactionConfigView.selected_cards
      (RedactionConfigView.RedactionConfig (redactionLevel (st w')) fileName)
    = [RedactionConfigView.card_level card] /\
    step (st w') = step (st w) /\
    selectedFile (st w') = selectedFile (st w).
Proof.
  intros w fileName card Hin w'.
  assert (Hst : redactionLevel (st w') = RedactionConfigView.card_click card /\
                step (st w') = step (st w) /\
                selectedFile (st w') = selectedFile (st w)).
  { unfold w', dispatch. cbn [handler]. clear. open_world w. unfold run. exec.
    repeat split. }
  destruct Hst as (-> & Hs & Hf). split; [|split; assumption].
  unfold RedactionConfigView.RedactionConfig in Hin. cbn [RedactionConfigView.cards] in Hin.
  apply in_map_iff in Hin as (level & <- & Hlevel).
  cbn in Hlevel. destruct Hlevel as [<- | [<- | [<- | []]]]; reflexivity.
Qed.

End MorePageFacts.

(** ** The step indicator *)

Section IndicatorFacts.
Import Page StepIndicator.

(** X18. Off the upload step, where it is hidden, the indicator draws
    exactly one dot as active, every dot before it as done and every dot
    after it as pending; the active dot is Configure on the configure and
    password steps, Process while processing and Download on the result. *)
Theorem indicator_one_active :
  forall step : Step,
    match indicator step with
    | None => step = Upload
    | Some dots =>
        step <> Upload /\
        map dot_label dots = ["Upload"; "Configure"; "Process"; "Download"] /\
        exists before after : nat,
          map look dots
            = (repeat (Some Done) before ++ [Some Active] ++ repeat (Some Pending) after)%list /\
          nth_error (map dot_label dots) before
            = Some match step with
                   | Processing => "Process"
                   | Result => "Download"
                   | _ => "Configure"
                   end
    end.
Proof.
  intros [| | | |]; cbn; try reflexivity;
    (split; [discriminate|]; split; [reflexivity|]).
  - exists 1%nat, 2%nat. split; reflexivity.
  - exists 1%nat, 2%nat. split; reflexivity.
  - exists 2%nat, 1%nat. split; reflexivity.
  - exists 3%nat, 0%nat. split; reflexivity.
Qed.

End IndicatorFacts.

(** ** The upload component *)

Section FileUploadFacts.
Import Page FileUpload.



(** X20. A drop or a pick that brings no file keeps the selection there
    was, and the click uploads that selection: dropping an empty list after
    choosing [f] and clicking uploads [f]; a drop always ends the dragging
    highlight; after the clear button the click uploads nothing. *)
Theorem empty_drop_keeps_selection :
  forall (s : State) (f : File) (files : option (list File)),
    first_file files = None ->
    selectedFile s = Some f ->
    snd (run s [Drop files; UploadClick]) = [f] /\
    snd (run s [FileSelect files; UploadClick]) = [f] /\
    isDragging (fst (run s [DragOver; Drop files])) = false /\
    snd (run s [ClearClick; UploadClick]) = [].
Proof.
  intros s f files Hnone Hsel. cbn. unfold handleUploadClick, handleDrop, handleFileSelect.
  rewrite Hnone. cbn. rewrite Hsel. repeat split.
Qed.

Lemma tenths_nearest (num den : N) :
  (den <> 0)%N ->
  (den * tenths num den <= 10 * num + den / 2 < den * tenths num den + den)%N.
Proof.
  intros Hden. unfold tenths. split.
  - apply N.Div0.mul_div_le.
  - rewrite <- N.mul_succ_r. now apply N.mul_succ_div_gt.
Qed.

(** X21. For a size a JavaScript number holds exactly: below 1024 bytes it
    is shown exactly, in bytes.  From there on it is shown in KB, and from
    1024 * 1024 bytes on in MB, as the number of tenths nearest to the
    quotient, a tie going up: the number shown is off by at most 0.05 units
    and is at least 1.0. *)
Theorem formatSize_nearest_tenth :
  forall bytes : N,
    (bytes < 2 ^ 53)%N ->
    if (bytes <? 1024)%N then formatSize bytes = decimal bytes ++ " B"
    else
      let unit := if (bytes <? 1024 * 1024)%N then (" KB", 1024%N)
                  else (" MB", (1024 * 1024)%N) in
      exists n : N,
        formatSize bytes = toFixed1 n ++ fst unit /\
        (snd unit * n <= 10 * bytes + snd unit / 2 < snd unit * n + snd unit)%N /\
        (10 <= n)%N.
Proof.
  intros bytes _. unfold formatSize.
  destruct (bytes <? 1024)%N eqn:H1; [reflexivity|].
  apply N.ltb_ge in H1.
  destruct (bytes <? 1024 * 1024)%N eqn:H2; cbv zeta; cbn [fst snd].
  - exists (tenths bytes 1024). split; [reflexivity|].
    pose proof (tenths_nearest bytes 1024 ltac:(lia)) as Hn.
    change (1024 / 2)%N with 512%N in *. split; lia.
  - apply N.ltb_ge in H2.
    exists (tenths bytes (1024 * 1024)). split; [reflexivity|].
    pose proof (tenths_nearest bytes (1024 * 1024) ltac:(lia)) as Hn.
    change (1024 * 1024)%N with 1048576%N in *.
    change (1048576 / 2)%N with 524288%N in *. split; lia.
Qed.

(** X22. The last 51 sizes before one megabyte are shown as 1024.0 KB, not
    as 1.0 MB: the unit is chosen before the rounding. *)
Theorem formatSize_just_below_MB :
  forall bytes : N,
    (1048525 <= bytes < 1048576)%N ->
    formatSize bytes = "1024.0 KB".
Proof.
  intros bytes [Hlo Hhi]. unfold formatSize.
  replace (bytes <? 1024)%N with false by (symmetry; apply N.ltb_ge; lia).
  replace (bytes <? 1024 * 1024)%N with true by (symmetry; apply N.ltb_lt; lia).
  assert (Hn : tenths bytes 1024 = 10240%N).
  { unfold tenths. change (1024 / 2)%N with 512%N.
    symmetry. apply (N.div_unique _ _ _ (10 * bytes + 512 - 1024 * 10240)); lia. }
  rewrite Hn. reflexivity.
Qed.

End FileUploadFacts.

(** ** The further properties at concrete inputs *)

Section MoreWitnesses.
Import JS Page.

Lemma chosen_reachable (file : File) : reachable Json.JSON_parse (Samples.chosen file).
Proof. unfold Samples.chosen. apply reach_step; [apply reach_init | reflexivity]. Qed.


Lemma strip_extension_any_case_witness :
  strip_extension ("scan.pdf" ++ String "."%char "PNG") = "scan.pdf".
Proof.
  apply (strip_extension_any_case "scan.pdf" "PNG").
  vm_compute. right; left; reflexivity.
Defined.

Lemma match_filename_shape_witness :
  exists pre q1 q2 : string,
    "inline; filename=report.pdf" = pre ++ "filename=" ++ q1 ++ "report.pdf" ++ q2.
Proof.
  destruct (match_filename_shape "inline; filename=report.pdf" "report.pdf" eq_refl)
    as (_ & _ & pre & q1 & q2 & H & _).
  exists pre, q1, q2. exact H.
Defined.

Lemma match_filename_attachment_witness :
  match_filename
    ("attachment; filename="
     ++ String dquote ("statement_redacted.pdf" ++ String dquote ""))
  = Some "statement_redacted.pdf".
Proof.
  apply (match_filename_attachment "s"%char "tatement_redacted.pdf"). reflexivity.
Defined.

Lemma handlePasswordSubmit_nonblank_witness :
  let w := run (setPdfPassword " hunter2 ")
             (run (setStep Password) (Samples.chosen Samples.statement_pdf)) in
  exists later : list Effect,
    log (run (handlePasswordSubmit Json.JSON_parse (st w)
                (Samples.always 10 (Samples.locked "Invalid password"))) w)
    = (later ++ [Post "http://localhost:8000/redact"
                   [("file", FFile Samples.statement_pdf);
                    ("redaction_level", FString "medium");
                    ("password", FString " hunter2 ")]])%list.
Proof.
  cbv zeta.
  destruct (handlePasswordSubmit_nonblank Json.JSON_parse
              (run (setPdfPassword " hunter2 ")
                 (run (setStep Password) (Samples.chosen Samples.statement_pdf)))
              (Samples.always 10 (Samples.locked "Invalid password"))
              Samples.statement_pdf eq_refl eq_refl) as (_ & later & Hlog & _).
  exists later. exact Hlog.
Defined.

Lemma doRedact_settles_witness :
  let w := Samples.chosen Samples.statement_pdf in
  step (st (run (doRedact Json.JSON_parse (st w)
                   (Samples.always 10 (HttpReply 503 [] (Samples.json_blob "busy")))
                   None) w))
  = Configure.
Proof.
  exact (proj1 (doRedact_settles Json.JSON_parse
                  (Samples.chosen Samples.statement_pdf)
                  (Samples.always 10 (HttpReply 503 [] (Samples.json_blob "busy")))
                  None Samples.statement_pdf 10 _ eq_refl eq_refl)).
Defined.

Lemma doRedact_leaves_alone_witness :
  let w := run (setPdfPassword "hunter2")
             (run (setStep Password) (Samples.chosen Samples.statement_pdf)) in
  pdfPassword (st (run (doRedact Json.JSON_parse (st w)
                          (Samples.always 10
                             (HttpReply 200 [] (Samples.pdf_blob "%PDF-1.7 redacted")))
                          (Some "hunter2")) w))
  = "hunter2".
Proof.
  cbv zeta.
  destruct (doRedact_leaves_alone Json.JSON_parse
              (run (setPdfPassword "hunter2")
                 (run (setStep Password) (Samples.chosen Samples.statement_pdf)))
              (Samples.always 10 (HttpReply 200 [] (Samples.pdf_blob "%PDF-1.7 redacted")))
              (Some "hunter2") Samples.statement_pdf 10 _ eq_refl eq_refl)
    as (_ & _ & H & _).
  exact H.
Defined.





Lemma password_retry_resubmits_witness :
  let w := Samples.chosen Samples.statement_pdf in
  let w1 := dispatch Json.JSON_parse
              (Proceed (Samples.always 10 (Samples.locked "Password required"))) w in
  let w2 := dispatch Json.JSON_parse (PasswordTyped "hunter2") w1 in
  let w3 := dispatch Json.JSON_parse
              (PasswordSubmitted
                 (Samples.always 700
                    (HttpReply 200 [] (Samples.pdf_blob "%PDF-1.7 redacted")))) w2 in
  render (st w1) = PasswordScreen "statement.pdf" None "" /\
  exists later : list Effect,
    log w3 = (later
              ++ [Post "http://localhost:8000/redact"
                    [("file", FFile Samples.statement_pdf);
                     ("redaction_level", FString "medium");
                     ("password", FString "hunter2")];
                  Post "http://localhost:8000/redact"
                    [("file", FFile Samples.statement_pdf);
                     ("redaction_level", FString "medium")]])%list.
Proof.
  cbv zeta.
  destruct (password_retry_resubmits Json.JSON_parse
              (Samples.chosen Samples.statement_pdf)
              (Samples.always 10 (Samples.locked "Password required"))
              (Samples.always 700 (HttpReply 200 [] (Samples.pdf_blob "%PDF-1.7 redacted")))
              Samples.statement_pdf 10 _ "hunter2" eq_refl eq_refl eq_refl eq_refl)
    as (H1 & _ & later & Hlog & _).
  split; [exact H1|]. exists later. exact Hlog.
Defined.

Lemma upload_opens_configure_witness :
  render (st (dispatch Json.JSON_parse (FileUploaded Samples.scan_png) (initial_world 0)))
  = ConfigureScreen None "medium" "scan.PNG".
Proof.
  exact (proj1 (upload_opens_configure Json.JSON_parse (initial_world 0) Samples.scan_png
                  (reach_init Json.JSON_parse 0) eq_refl)).
Defined.

Lemma reachable_one_level_card_witness :
  map RedactionConfig.id
    (RedactionConfigView.selected_cards
       (RedactionConfigView.RedactionConfig
          (redactionLevel (st (Samples.chosen Samples.statement_pdf))) "statement.pdf"))
  = ["medium"].
Proof.
  exact (proj1 (proj2 (reachable_one_level_card Json.JSON_parse
                         (Samples.chosen Samples.statement_pdf) "statement.pdf"
                         (chosen_reachable Samples.statement_pdf)))).
Defined.

Lemma card_click_selects_witness :
  let w := Samples.chosen Samples.statement_pdf in
  map RedactionConfig.id
    (RedactionConfigView.selected_cards
       (RedactionConfigView.RedactionConfig
          (redactionLevel
             (st (dispatch Json.JSON_parse
                    (LevelSelected (RedactionConfigView.card_click MoreSamples.maximum_card))
                    w)))
          "statement.pdf"))
  = ["high"].
Proof.
  cbv zeta.
  destruct (card_click_selects Json.JSON_parse
              (Samples.chosen Samples.statement_pdf) "statement.pdf"
              MoreSamples.maximum_card) as (H & _).
  - vm_compute. right; right; left; reflexivity.
  - rewrite H. reflexivity.
Defined.

Lemma empty_drop_keeps_selection_witness :
  snd (FileUpload.run MoreSamples.holding [FileUpload.Drop (Some []); FileUpload.UploadClick])
  = [Samples.statement_pdf].
Proof.
  exact (proj1 (empty_drop_keeps_selection MoreSamples.holding Samples.statement_pdf
                  (Some []) eq_refl eq_refl)).
Defined.

Lemma formatSize_nearest_tenth_witness :
  exists n : N,
    FileUpload.formatSize 1280 = FileUpload.toFixed1 n ++ " KB" /\
    (1024 * n <= 10 * 1280 + 512 < 1024 * n + 1024)%N.
Proof.
  pose proof (formatSize_nearest_tenth 1280 ltac:(vm_compute; reflexivity)) as H.
  cbv beta iota zeta delta [N.ltb N.compare Pos.compare Pos.compare_cont fst snd] in H.
  destruct H as (n & Hshow & Hnear & _).
  exists n. split; [exact Hshow | exact Hnear].
Defined.

Lemma formatSize_just_below_MB_witness :
  FileUpload.formatSize 1048575 = "1024.0 KB".
Proof.
  apply (formatSize_just_below_MB 1048575). lia.
Defined.

Lemma doRedact_success_unnamed_witness :
  let w := Samples.chosen Samples.statement_pdf in
  downloadFilename
    (st (run (doRedact Json.JSON_parse (st w)
                (Samples.always 10
                   (HttpReply 200 [("content-disposition", "attachment")]
                      (Samples.pdf_blob "%PDF-1.7 redacted")))
                None) w))
  = "redacted_document.pdf".
Proof.
  exact (proj2 (doRedact_success_unnamed Json.JSON_parse
                  (Samples.chosen Samples.statement_pdf)
                  (Samples.always 10
                     (HttpReply 200 [("content-disposition", "attachment")]
                        (Samples.pdf_blob "%PDF-1.7 redacted")))
                  None Samples.statement_pdf 10 200 _ _ eq_refl eq_refl eq_refl eq_refl)).
Defined.

End MoreWitnesses.
